(** * Reconcile-by-tag modules for EC2 VPC resources

    A shallow embedding of the four Ansible modules

      - cloud/amazon/ec2_vpc_customer_gateway.py
      - cloud/amazon/ec2_vpc_dhcp_options_set.py
      - cloud/amazon/ec2_vpc_vpn_connection.py
      - cloud/amazon/ec2_vpc_vpn_gateway.py

    Every module function is a computation in a state monad over a model of
    the provider account ([World]).  [module.fail_json] ends the run with
    [FailJson]; the world reached at that point is kept, so what was issued
    before a failure stays visible.  Mutating provider calls are appended to
    the [calls] log of the world.

    Provider model.  The boto calls are taken to succeed: credentials,
    transport and provider-side errors are outside these modules.  A create
    call stores the attributes it is given under the next id of [id_supply]
    and appends the new resource to the listing; a delete call removes the
    resource from the listing; [create_tags] overwrites the given keys of the
    resource's tag mapping.  Time is counted in whole seconds: [time.sleep(1)]
    advances [now] by one and provider calls take no time. *)

From stdpp Require Import base strings list gmap pretty.

Open Scope Z_scope.

(** ** Outcomes and the module monad *)

Inductive outcome (A : Type) : Type :=
| Return (a : A)             (* the function returned [a] *)
| FailJson (msg : string)    (* module.fail_json(msg=msg): the run ends *)
| Raise (exn : string)       (* an uncaught Python exception *)
| Running.                   (* a [while True] loop used up its step budget *)
Arguments Return {A} a.
Arguments FailJson {A} msg.
Arguments Raise {A} exn.
Arguments Running {A}.

(** boto's [Tag] objects, as [ec2.get_all_tags] returns them. *)
Record Tag := { tag_name : string; tag_value : string }.

(** Mutating provider calls, as they are logged. [R] is the resource kind. *)
Inductive Call (R : Type) : Type :=
| Create (r : R)
| CreateTags (rid : string) (tags : gmap string string)
| Delete (rid : string)
| AttachVpnGateway (gw vpc : string)
| DetachVpnGateway (gw vpc : string).
Arguments Create {R} r.
Arguments CreateTags {R} rid tags.
Arguments Delete {R} rid.
Arguments AttachVpnGateway {R} gw vpc.
Arguments DetachVpnGateway {R} gw vpc.

Record World (R : Type) : Type := mkWorld {
  resources : list R;                      (* what get_all_* lists *)
  tags : gmap string (gmap string string); (* resource id -> tag key -> value *)
  id_supply : nat → string;                (* ids the provider hands out *)
  issued : nat;                            (* how many it has handed out *)
  calls : list (Call R);                   (* mutating calls so far *)
  now : Z;                                 (* time.time(), in seconds *)
  polls : nat;                             (* state queries so far *)
  state_at : string → nat → string;        (* resource id, query number -> state *)
}.
Arguments mkWorld {R}.
Arguments resources {R}.
Arguments tags {R}.
Arguments id_supply {R}.
Arguments issued {R}.
Arguments calls {R}.
Arguments now {R}.
Arguments polls {R}.
Arguments state_at {R}.

Definition M (R A : Type) : Type := World R → outcome A * World R.

Definition ret {R A} (a : A) : M R A := λ w, (Return a, w).

Definition bind {R A B} (m : M R A) (f : A → M R B) : M R B :=
  λ w, match m w with
       | (Return a, w') => f a w'
       | (FailJson msg, w') => (FailJson msg, w')
       | (Raise exn, w') => (Raise exn, w')
       | (Running, w') => (Running, w')
       end.

Declare Scope module_scope.
Delimit Scope module_scope with module.
Notation "'do' x <- m ; k" := (bind m (λ x, k))
  (at level 10, x name, m at level 100, k at level 200,
   format "'[v' 'do'  x  <-  m ; '/' k ']'") : module_scope.
Notation "m ;; k" := (bind m (λ _, k))
  (at level 100, k at level 200, right associativity) : module_scope.
Open Scope module_scope.

Definition fail_json {R A} (msg : string) : M R A := λ w, (FailJson msg, w).
Definition raise {R A} (exn : string) : M R A := λ w, (Raise exn, w).
Definition running {R A} : M R A := λ w, (Running, w).

(** The target state of a module run: <<choices=['present', 'absent']>>. *)
Inductive State := present | absent.

(** What [module.exit_json] reports: its keyword arguments. *)
Inductive Json := JBool (b : bool) | JString (s : string) | JList (l : list string).

Definition exit_json {R} (kwargs : gmap string Json) : M R (gmap string Json) :=
  ret kwargs.

(** <<if region:>> on what [get_ec2_creds] returned. *)
Definition truthy (region : option string) : bool :=
  match region with
  | Some s => bool_decide (s ≠ "")
  | None => false
  end.

Section Provider.
Context {R : Type}.

Definition set_resources (f : list R → list R) (w : World R) : World R :=
  mkWorld (f (resources w)) (tags w) (id_supply w) (issued w) (calls w)
          (now w) (polls w) (state_at w).
Definition set_tags (f : gmap string (gmap string string) →
                         gmap string (gmap string string))
           (w : World R) : World R :=
  mkWorld (resources w) (f (tags w)) (id_supply w) (issued w) (calls w)
          (now w) (polls w) (state_at w).
Definition log (c : Call R) (w : World R) : World R :=
  mkWorld (resources w) (tags w) (id_supply w) (issued w) (calls w ++ [c])
          (now w) (polls w) (state_at w).

(** The id the provider assigns to the next created resource. *)
Definition next_id (w : World R) : string := id_supply w (issued w).

Definition take_id : M R string :=
  λ w, (Return (next_id w),
        mkWorld (resources w) (tags w) (id_supply w) (S (issued w)) (calls w)
                (now w) (polls w) (state_at w)).

(** vpc_conn.get_all_<kind>() *)
Definition get_all : M R (list R) := λ w, (Return (resources w), w).

(** The tag mapping of a resource; a resource never tagged has none. *)
Definition tags_of (w : World R) (rid : string) : gmap string string :=
  default ∅ (tags w !! rid).

(** ec2.get_all_tags(filters={'resource-id': rid}) *)
Definition get_all_tags (rid : string) : M R (list Tag) :=
  λ w, (Return ((λ kv, {| tag_name := kv.1; tag_value := kv.2 |})
                  <$> map_to_list (tags_of w rid)), w).

(** ec2.create_tags(rid, new) *)
Definition create_tags (rid : string) (new : gmap string string) : M R unit :=
  λ w, (Return tt,
        log (CreateTags rid new) (set_tags (λ t, <[rid := new ∪ tags_of w rid]> t) w)).

(** vpc_conn.create_<kind>(...): stores [mk id] under a new id. *)
Definition create_resource (mk : string → R) : M R R :=
  do i <- take_id;
  λ w, (Return (mk i), log (Create (mk i)) (set_resources (λ l, l ++ [mk i]) w)).

(** vpc_conn.delete_<kind>(rid) *)
Definition delete_resource (rid_of : R → string) (rid : string) : M R unit :=
  λ w, (Return tt,
        log (Delete rid)
            (set_resources (filter (λ r, rid_of r ≠ rid)) w)).

(** time.time() *)
Definition time_time : M R Z := λ w, (Return (now w), w).

(** time.sleep(seconds) *)
Definition time_sleep (seconds : Z) : M R unit :=
  λ w, (Return tt,
        mkWorld (resources w) (tags w) (id_supply w) (issued w) (calls w)
                (now w + seconds) (polls w) (state_at w)).

(** vpc_conn.get_all_<kind>(ids): the listed resources with one of the
    given ids, each with the state the provider reports at this query. *)
Definition get_all_by_id (rid_of : R → string) (ids : list string)
  : M R (list (R * string)) :=
  λ w, (Return ((λ r, (r, state_at w (rid_of r) (polls w)))
                  <$> filter (λ r, rid_of r ∈ ids) (resources w)),
        mkWorld (resources w) (tags w) (id_supply w) (issued w) (calls w)
                (now w) (S (polls w)) (state_at w)).

(** <<tagdict = {}; for tag in gettags: tagdict[tag.name] = tag.value>> *)
Definition build_tagdict (gettags : list Tag) : gmap string string :=
  foldl (λ tagdict tag, <[tag_name tag := tag_value tag]> tagdict) ∅ gettags.

(** <<('Name', name) in set(tagdict.items())>> *)
Definition name_in_items (name : string) (tagdict : gmap string string) : bool :=
  bool_decide (("Name", name) ∈ map_to_list tagdict).

(** A [for] loop whose body may return from the enclosing function: the
    body yields [Some v] for <<return v>> and [None] to go on. *)
Fixpoint for_each {A V} (xs : list A) (body : A → M R (option V))
  : M R (option V) :=
  match xs with
  | [] => ret None
  | x :: rest =>
      do r <- body x;
      match r with
      | Some v => ret (Some v)
      | None => for_each rest body
      end
  end.

(** A [for] loop that updates local variables [s] and always runs to the
    end of the list. *)
Fixpoint for_fold {A S} (xs : list A) (s : S) (body : S → A → M R S)
  : M R S :=
  match xs with
  | [] => ret s
  | x :: rest => do s' <- body s x; for_fold rest s' body
  end.
End Provider.

(** ** ec2_vpc_customer_gateway.py *)
Module CustomerGateway.

Record CustomerGateway := mkCustomerGateway {
  cg_id : string;
  cg_type : string;
  cg_ip_address : string;
  cg_bgp_asn : Z;
}.

(** [module.params] *)
Record Params := mkParams {
  name : string;
  type : string;
  ip_address : string;
  bgp_asn : Z;
  state : State;
  region : option string;
}.

Definition create_customer_gateway (p : Params)
  : M CustomerGateway (string * bool) :=
  let name := name p in
  let type := type p in
  let ip_address := ip_address p in
  let bgp_asn := bgp_asn p in
  do customer_gateways <- get_all;
  do found <- for_each customer_gateways (λ customer_gateway,
    do gettags <- get_all_tags (cg_id customer_gateway);
    let tagdict := build_tagdict gettags in
    if name_in_items name tagdict then
      let changed := false in
      let changed :=
        if bool_decide (type ≠ cg_type customer_gateway) then true else changed in
      let changed :=
        if bool_decide (ip_address ≠ cg_ip_address customer_gateway)
        then true else changed in
      let changed :=
        if bool_decide (bgp_asn ≠ cg_bgp_asn customer_gateway)
        then true else changed in
      (if changed then fail_json "Customer gateway cannot be modified"
       else ret tt);;
      ret (Some (cg_id customer_gateway, false))
    else ret None);
  match found with
  | Some r => ret r
  | None =>
      do customer_gateway <-
        create_resource (λ i, mkCustomerGateway i type ip_address bgp_asn);
      create_tags (cg_id customer_gateway) {["Name" := name]};;
      ret (cg_id customer_gateway, true)
  end.

Definition delete_customer_gateway (p : Params)
  : M CustomerGateway (list string) :=
  let name := name p in
  do customer_gateways <- get_all;
  let removed_customer_gateways := [] in
  for_fold customer_gateways removed_customer_gateways
    (λ removed_customer_gateways customer_gateway,
      do gettags <- get_all_tags (cg_id customer_gateway);
      let tagdict := build_tagdict gettags in
      if name_in_items name tagdict then
        delete_resource cg_id (cg_id customer_gateway);;
        ret (removed_customer_gateways ++ [cg_id customer_gateway])
      else ret removed_customer_gateways).

Definition main (p : Params) : M CustomerGateway (gmap string Json) :=
  let state := state p in
  (if truthy (region p) then ret tt
   else fail_json "region must be specified");;
  match state with
  | present =>
      do r <- create_customer_gateway p;
      let '(connection, changed) := r in
      exit_json {[ "changed" := JBool changed; "gateway_id" := JString connection ]}
  | absent =>
      do removed <- delete_customer_gateway p;
      let changed := bool_decide (0 < length removed)%nat in
      exit_json {[ "changed" := JBool changed; "removed_ids" := JList removed ]}
  end.

End CustomerGateway.

(** ** ec2_vpc_dhcp_options_set.py *)
Module DhcpOptionsSet.

(** boto's [DhcpOptions]: [options] maps an option key to its values. *)
Record DhcpOptions := mkDhcpOptions {
  do_id : string;
  options : gmap string (list string);
}.

(** [module.params]; an option that is not given is [None]. *)
Record Params := mkParams {
  name : string;
  domain : option string;
  domain_name_servers : option (list string);
  ntp_servers : option (list string);
  netbios_name_servers : option (list string);
  netbios_node_type : option Z;
  state : State;
  region : option string;
}.

Definition build_options (domain : option string)
    (domain_name_servers ntp_servers netbios_name_servers : option (list string))
    (netbios_node_type : option Z) : gmap string (list string) :=
  let optionsdict : gmap string (list string) := ∅ in
  let optionsdict :=
    match domain with
    | Some domain => <["domain-name" := [domain]]> optionsdict
    | None => optionsdict
    end in
  let optionsdict :=
    match domain_name_servers with
    | Some domain_name_servers =>
        <["domain-name-servers" := domain_name_servers]> optionsdict
    | None => optionsdict
    end in
  let optionsdict :=
    match ntp_servers with
    | Some ntp_servers => <["ntp-servers" := ntp_servers]> optionsdict
    | None => optionsdict
    end in
  let optionsdict :=
    match netbios_name_servers with
    | Some netbios_name_servers =>
        <["netbios-name-servers" := netbios_name_servers]> optionsdict
    | None => optionsdict
    end in
  let optionsdict :=
    match netbios_node_type with
    | Some netbios_node_type =>
        <["netbios-node-type" := [pretty netbios_node_type]]> optionsdict
    | None => optionsdict
    end in
  optionsdict.

(** vpc_conn.create_dhcp_options(...): the provider is taken to store the
    options it is given under their option keys. *)
Definition create_dhcp_options (domain : option string)
    (domain_name_servers ntp_servers netbios_name_servers : option (list string))
    (netbios_node_type : option Z) : M DhcpOptions DhcpOptions :=
  create_resource (λ i, mkDhcpOptions i
    (build_options domain domain_name_servers ntp_servers
                   netbios_name_servers netbios_node_type)).

Definition create_dhcp_options_set (p : Params)
  : M DhcpOptions (string * bool) :=
  let name := name p in
  let domain := domain p in
  let domain_name_servers := domain_name_servers p in
  let ntp_servers := ntp_servers p in
  let netbios_name_servers := netbios_name_servers p in
  let netbios_node_type := netbios_node_type p in
  do dhcp_options <- get_all;
  do found <- for_each dhcp_options (λ dhcp_option,
    do gettags <- get_all_tags (do_id dhcp_option);
    let tagdict := build_tagdict gettags in
    if name_in_items name tagdict then
      let real_options := options dhcp_option in
      let desired_options :=
        build_options domain domain_name_servers ntp_servers
                      netbios_name_servers netbios_node_type in
      (if bool_decide (desired_options ≠ real_options)
       then fail_json "DHCP options cannot be modified"
       else ret tt);;
      ret (Some (do_id dhcp_option, false))
    else ret None);
  match found with
  | Some r => ret r
  | None =>
      do dhcp_options_set <-
        create_dhcp_options domain domain_name_servers ntp_servers
                            netbios_name_servers netbios_node_type;
      create_tags (do_id dhcp_options_set) {["Name" := name]};;
      ret (do_id dhcp_options_set, true)
  end.

Definition delete_dhcp_options_set (p : Params)
  : M DhcpOptions (list string) :=
  let name := name p in
  do dhcp_options <- get_all;
  let removed_dhcp_options := [] in
  for_fold dhcp_options removed_dhcp_options
    (λ removed_dhcp_options dhcp_option,
      do gettags <- get_all_tags (do_id dhcp_option);
      let tagdict := build_tagdict gettags in
      if name_in_items name tagdict then
        delete_resource do_id (do_id dhcp_option);;
        ret (removed_dhcp_options ++ [do_id dhcp_option])
      else ret removed_dhcp_options).

Definition main (p : Params) : M DhcpOptions (gmap string Json) :=
  let state := state p in
  (if truthy (region p) then ret tt
   else fail_json "region must be specified");;
  match state with
  | present =>
      do r <- create_dhcp_options_set p;
      let '(dhcp_options_set_id, changed) := r in
      exit_json {[ "changed" := JBool changed;
                   "dhcp_options_set_id" := JString dhcp_options_set_id ]}
  | absent =>
      do removed <- delete_dhcp_options_set p;
      let changed := bool_decide (0 < length removed)%nat in
      exit_json {[ "changed" := JBool changed ]}
  end.

End DhcpOptionsSet.

(** ** ec2_vpc_vpn_connection.py *)
Module VpnConnection.

Record VpnConnection := mkVpnConnection {
  vc_id : string;
  vc_type : string;
  vc_customer_gateway_id : string;
  vc_vpn_gateway_id : string;
  vc_static_routes_only : bool;
}.

Record Params := mkParams {
  name : string;
  type : string;
  customer_gateway_id : string;
  vpn_gateway_id : string;
  static_routes_only : bool;
  wait : bool;
  wait_timeout : Z;
  state : State;
  region : option string;
}.

Definition get_connection_state (original_vpn_connection : VpnConnection)
  : M VpnConnection string :=
  let vpn_connection_ids := [vc_id original_vpn_connection] in
  do vpn_connection <- get_all_by_id vc_id vpn_connection_ids;
  match vpn_connection with
  | [] => raise "IndexError"
  | first :: _ => ret first.2
  end.

Definition timeout_msg (id awaited_state : string) : string :=
  "The vpn connection " +:+ id +:+ " failed to be in the " +:+ awaited_state
    +:+ " state within the timeout period.".

(** The <<while True>> loop of [await_vpn_connection_state]; [fuel] bounds
    the number of iterations that are run. *)
Fixpoint await_loop (fuel : nat) (vpn_connection : VpnConnection)
    (awaited_state : string) (wait_timeout : Z) (initial_state : string)
    (changed : bool) : M VpnConnection unit :=
  match fuel with
  | O => running
  | S fuel =>
      do connection_state <- get_connection_state vpn_connection;
      if bool_decide (connection_state = awaited_state) then
        let changed :=
          if bool_decide (connection_state ≠ initial_state) then true
          else changed in
        ret tt
      else
        (if bool_decide (connection_state = "pending") then ret tt
         else
           do t <- time_time;
           if (t >=? wait_timeout)
           then fail_json (timeout_msg (vc_id vpn_connection) awaited_state)
           else ret tt);;
        time_sleep 1;;
        await_loop fuel vpn_connection awaited_state wait_timeout
                   initial_state changed
  end.

Definition await_vpn_connection_state (fuel : nat)
    (vpn_connection : VpnConnection) (awaited_state : string) (timeout : Z)
  : M VpnConnection unit :=
  do t <- time_time;
  let wait_timeout := t + timeout in
  do initial_state <- get_connection_state vpn_connection;
  let changed := false in
  await_loop fuel vpn_connection awaited_state wait_timeout initial_state changed.

Definition create_vpn_connection (fuel : nat) (p : Params)
  : M VpnConnection (string * bool) :=
  let name := name p in
  let type := type p in
  let customer_gateway_id := customer_gateway_id p in
  let vpn_gateway_id := vpn_gateway_id p in
  let static_routes_only := static_routes_only p in
  let wait := wait p in
  let wait_timeout := wait_timeout p in
  do vpn_connections <- get_all;
  do found <- for_each vpn_connections (λ vpn_connection,
    do gettags <- get_all_tags (vc_id vpn_connection);
    let tagdict := build_tagdict gettags in
    if name_in_items name tagdict then
      let changed := false in
      let changed :=
        if bool_decide (type ≠ vc_type vpn_connection) then true else changed in
      let changed :=
        if bool_decide (customer_gateway_id ≠ vc_customer_gateway_id vpn_connection)
        then true else changed in
      let changed :=
        if bool_decide (vpn_gateway_id ≠ vc_vpn_gateway_id vpn_connection)
        then true else changed in
      (if changed then fail_json "VPN connection cannot be modified"
       else ret tt);;
      ret (Some (vc_id vpn_connection, false))
    else ret None);
  match found with
  | Some r => ret r
  | None =>
      do vpn_connection <-
        create_resource (λ i, mkVpnConnection i type customer_gateway_id
                                vpn_gateway_id static_routes_only);
      create_tags (vc_id vpn_connection) {["Name" := name]};;
      (if wait
       then await_vpn_connection_state fuel vpn_connection "available" wait_timeout
       else ret tt);;
      ret (vc_id vpn_connection, true)
  end.

Definition delete_vpn_connection (p : Params)
  : M VpnConnection (list string) :=
  let name := name p in
  do vpn_connections <- get_all;
  let removed_vpn_connections := [] in
  for_fold vpn_connections removed_vpn_connections
    (λ removed_vpn_connections vpn_connection,
      do gettags <- get_all_tags (vc_id vpn_connection);
      let tagdict := build_tagdict gettags in
      if name_in_items name tagdict then
        delete_resource vc_id (vc_id vpn_connection);;
        ret (removed_vpn_connections ++ [vc_id vpn_connection])
      else ret removed_vpn_connections).

Definition main (fuel : nat) (p : Params)
  : M VpnConnection (gmap string Json) :=
  let state := state p in
  (if truthy (region p) then ret tt
   else fail_json "region must be specified");;
  match state with
  | present =>
      do r <- create_vpn_connection fuel p;
      let '(connection, changed) := r in
      exit_json {[ "changed" := JBool changed;
                   "connection_id" := JString connection ]}
  | absent =>
      do removed <- delete_vpn_connection p;
      let changed := bool_decide (0 < length removed)%nat in
      exit_json {[ "changed" := JBool changed; "removed_ids" := JList removed ]}
  end.

End VpnConnection.

(** ** ec2_vpc_vpn_gateway.py *)
Module VpnGateway.

(** boto's [Attachment] of a gateway to a VPC. *)
Record Attachment := mkAttachment { att_vpc_id : string }.

Record VpnGateway := mkVpnGateway {
  vg_id : string;
  vg_type : string;
  attachments : list Attachment;
}.

Record Params := mkParams {
  name : string;
  vpc_id : string;
  type : string;
  state : State;
  region : option string;
}.

(** vpc_conn.attach_vpn_gateway(gw, vpc) *)
Definition attach_vpn_gateway (gw vpc : string) : M VpnGateway unit :=
  λ w, (Return tt,
        log (AttachVpnGateway gw vpc)
          (set_resources
             (fmap (λ g, if bool_decide (vg_id g = gw)
                         then mkVpnGateway (vg_id g) (vg_type g)
                                (attachments g ++ [mkAttachment vpc])
                         else g)) w)).

(** vpc_conn.detach_vpn_gateway(gw, vpc) *)
Definition detach_vpn_gateway (gw vpc : string) : M VpnGateway unit :=
  λ w, (Return tt,
        log (DetachVpnGateway gw vpc)
          (set_resources
             (fmap (λ g, if bool_decide (vg_id g = gw)
                         then mkVpnGateway (vg_id g) (vg_type g)
                                (filter (λ a, att_vpc_id a ≠ vpc) (attachments g))
                         else g)) w)).

Definition create_vpn_gateway (p : Params) : M VpnGateway (string * bool) :=
  let name := name p in
  let vpc_id := vpc_id p in
  let type := type p in
  do vpn_gateways <- get_all;
  do found <- for_each vpn_gateways (λ vpn_gateway,
    do gettags <- get_all_tags (vg_id vpn_gateway);
    let tagdict := build_tagdict gettags in
    if name_in_items name tagdict then
      let changed := false in
      let immutable_changed := false in
      let attachments := attachments vpn_gateway in
      let vpc_found := false in
      do locals <- for_fold attachments (changed, vpc_found)
        (λ '(changed, vpc_found) attachment,
          if bool_decide (att_vpc_id attachment ≠ vpc_id) then
            detach_vpn_gateway (vg_id vpn_gateway) (att_vpc_id attachment);;
            ret (true, vpc_found)
          else ret (changed, true));
      let '(changed, vpc_found) := locals in
      do changed <-
        (if negb vpc_found then
           attach_vpn_gateway (vg_id vpn_gateway) vpc_id;;
           ret true
         else ret changed);
      let immutable_changed :=
        if bool_decide (type ≠ vg_type vpn_gateway) then true
        else immutable_changed in
      (if immutable_changed
       then fail_json "VPN gateway cannot be modified in that way"
       else ret tt);;
      ret (Some (vg_id vpn_gateway, changed))
    else ret None);
  match found with
  | Some r => ret r
  | None =>
      do vpn_gateway <- create_resource (λ i, mkVpnGateway i type []);
      create_tags (vg_id vpn_gateway) {["Name" := name]};;
      attach_vpn_gateway (vg_id vpn_gateway) vpc_id;;
      ret (vg_id vpn_gateway, true)
  end.

Definition delete_vpn_gateway (p : Params) : M VpnGateway (list string) :=
  let name := name p in
  do vpn_gateways <- get_all;
  let removed_vpn_gateways := [] in
  for_fold vpn_gateways removed_vpn_gateways
    (λ removed_vpn_gateways vpn_gateway,
      do gettags <- get_all_tags (vg_id vpn_gateway);
      let tagdict := build_tagdict gettags in
      if name_in_items name tagdict then
        delete_resource vg_id (vg_id vpn_gateway);;
        ret (removed_vpn_gateways ++ [vg_id vpn_gateway])
      else ret removed_vpn_gateways).

Definition main (p : Params) : M VpnGateway (gmap string Json) :=
  let state := state p in
  (if truthy (region p) then ret tt
   else fail_json "region must be specified");;
  match state with
  | present =>
      do r <- create_vpn_gateway p;
      let '(connection, changed) := r in
      exit_json {[ "changed" := JBool changed; "gateway_id" := JString connection ]}
  | absent =>
      do removed <- delete_vpn_gateway p;
      let changed := bool_decide (0 < length removed)%nat in
      exit_json {[ "changed" := JBool changed; "removed_ids" := JList removed ]}
  end.

End VpnGateway.

(** * Properties *)

(** ** The monad and the loops *)

Lemma run_bind {R A B} (m : M R A) (f : A → M R B) w a w' :
  m w = (Return a, w') → bind m f w = f a w'.
Proof. intros E. unfold bind. by rewrite E. Qed.

(** A resource carries the tag [("Name", name)]. *)
Definition has_name_tag {R} (w : World R) (name rid : string) : Prop :=
  tags_of w rid !! "Name" = Some name.

Global Instance has_name_tag_dec {R} (w : World R) name rid :
  Decision (has_name_tag w name rid).
Proof. unfold has_name_tag. apply _. Defined.

Section TagIndex.
Context {R : Type}.
Implicit Types (w : World R) (d : gmap string string).

Lemma foldl_insert_tags (l : list (string * string)) d :
  NoDup l.*1 →
  foldl (λ tagdict tag, <[tag_name tag := tag_value tag]> tagdict) d
        ((λ kv, {| tag_name := kv.1; tag_value := kv.2 |}) <$> l)
  = list_to_map l ∪ d.
Proof.
  revert d. induction l as [|[k v] l IH]; intros d Hnd; simpl.
  - by rewrite (left_id_L ∅ (∪)).
  - inversion Hnd as [|? ? Hk Hl]; subst.
    rewrite IH by done.
    rewrite <- insert_union_r, insert_union_l; first done.
    by apply not_elem_of_list_to_map_1.
Qed.

(** Rebuilding [tagdict] from the listed tags gives the stored mapping. *)
Lemma build_tagdict_listed d :
  build_tagdict ((λ kv, {| tag_name := kv.1; tag_value := kv.2 |})
                   <$> map_to_list d) = d.
Proof.
  unfold build_tagdict. rewrite foldl_insert_tags.
  - by rewrite list_to_map_to_list, (right_id_L ∅ (∪)).
  - apply NoDup_fst_map_to_list.
Qed.

Lemma name_in_items_lookup name d :
  name_in_items name d = bool_decide (d !! "Name" = Some name).
Proof.
  unfold name_in_items. apply bool_decide_ext, elem_of_map_to_list.
Qed.

(** The test every scan makes on a listed resource. *)
Lemma tag_test {B} rid name (yes no : M R B) w :
  (do gettags <- get_all_tags rid;
   if name_in_items name (build_tagdict gettags) then yes else no) w
  = if bool_decide (has_name_tag w name rid) then yes w else no w.
Proof.
  unfold bind, get_all_tags; simpl.
  rewrite build_tagdict_listed, name_in_items_lookup.
  unfold has_name_tag. by repeat case_bool_decide.
Qed.

Lemma for_each_skip {A V} (pre xs : list A) (body : A → M R (option V)) w :
  (∀ x, x ∈ pre → body x w = (Return None, w)) →
  for_each (pre ++ xs) body w = for_each xs body w.
Proof.
  induction pre as [|x pre IH]; intros Hpre; simpl; first done.
  erewrite run_bind by (apply Hpre; left).
  apply IH. intros y Hy. apply Hpre. by right.
Qed.

Lemma for_each_none {A V} (xs : list A) (body : A → M R (option V)) w :
  (∀ x, x ∈ xs → body x w = (Return None, w)) →
  for_each xs body w = (Return None, w).
Proof.
  intros H. pose proof (for_each_skip xs [] body w H) as E.
  by rewrite app_nil_r in E.
Qed.

End TagIndex.

(** ** The absent path: the delete loop shared by the four modules *)
Section DeleteTagged.
Context {R : Type} (rid_of : R → string).
Implicit Types (w : World R).

(** The world after the delete calls for [ids], issued in that order. *)
Definition deleted (ids : list string) (w : World R) : World R :=
  foldl (λ w i, log (Delete i) (set_resources (filter (λ r, rid_of r ≠ i)) w))
        w ids.

Lemma deleted_cons i ids w :
  deleted (i :: ids) w
  = deleted ids (log (Delete i) (set_resources (filter (λ r, rid_of r ≠ i)) w)).
Proof. reflexivity. Qed.

Lemma deleted_calls ids w :
  calls (deleted ids w) = calls w ++ (Delete <$> ids).
Proof.
  revert w. induction ids as [|i ids IH]; intros w.
  - simpl. by rewrite app_nil_r.
  - rewrite deleted_cons, IH. simpl. by rewrite <- app_assoc.
Qed.

Lemma deleted_tags ids w : tags (deleted ids w) = tags w.
Proof.
  revert w. induction ids as [|i ids IH]; intros w; first done.
  by rewrite deleted_cons, IH.
Qed.

Lemma deleted_resources ids w :
  resources (deleted ids w) = filter (λ r, rid_of r ∉ ids) (resources w).
Proof.
  revert w. induction ids as [|i ids IH]; intros w.
  - simpl. induction (resources w) as [|r l IHl]; first done.
    rewrite filter_cons_True by apply not_elem_of_nil. by f_equal.
  - rewrite deleted_cons, IH. simpl.
    rewrite list_filter_filter. apply list_filter_iff.
    intros r. rewrite not_elem_of_cons. tauto.
Qed.

(** The loop of every [delete_*] function: the ids of the tagged resources,
    in scan order, are deleted one by one and collected. *)
Lemma delete_loop_spec name xs removed w :
  for_fold xs removed
    (λ removed x,
      do gettags <- get_all_tags (rid_of x);
      let tagdict := build_tagdict gettags in
      if name_in_items name tagdict then
        delete_resource rid_of (rid_of x);;
        ret (removed ++ [rid_of x])
      else ret removed) w
  = (Return (removed ++
               (rid_of <$> filter (λ r, has_name_tag w name (rid_of r)) xs)),
     deleted (rid_of <$> filter (λ r, has_name_tag w name (rid_of r)) xs) w).
Proof.
  revert removed w. induction xs as [|x xs IH]; intros removed w.
  - simpl. by rewrite app_nil_r.
  - cbn [for_fold]. cbv zeta. unfold bind at 1. rewrite tag_test.
    case_bool_decide as Hx.
    + rewrite filter_cons_True by done.
      unfold bind at 1, delete_resource, ret at 1.
      rewrite IH. rewrite <- app_assoc. reflexivity.
    + rewrite filter_cons_False by done.
      unfold ret at 1. by rewrite IH.
Qed.
End DeleteTagged.

(** ** The present path without a match: create, then tag *)
Section CreateAndTag.
Context {R : Type}.
Implicit Types (w : World R).

(** The world after a create call that stored [g] and the call that tagged
    [rid] with ("Name", name). *)
Definition created_and_tagged (g : R) (rid name : string) w : World R :=
  mkWorld (resources w ++ [g])
          (<[rid := {[ "Name" := name ]} ∪ tags_of w rid]> (tags w))
          (id_supply w) (S (issued w))
          ((calls w ++ [Create g]) ++ [CreateTags rid {[ "Name" := name ]}])
          (now w) (polls w) (state_at w).

Lemma created_and_tagged_calls g rid name w :
  calls (created_and_tagged g rid name w)
  = calls w ++ [Create g; CreateTags rid {[ "Name" := name ]}].
Proof. simpl. by rewrite <- app_assoc. Qed.

Lemma created_and_tagged_new g rid name w :
  has_name_tag (created_and_tagged g rid name w) name rid.
Proof.
  unfold has_name_tag, tags_of. simpl. rewrite lookup_insert_eq. simpl.
  apply lookup_union_Some_l, lookup_singleton_eq.
Qed.

Lemma created_and_tagged_old g rid name w rid' name' :
  rid' ≠ rid →
  has_name_tag (created_and_tagged g rid name w) name' rid'
  ↔ has_name_tag w name' rid'.
Proof.
  intros Hne. unfold has_name_tag, tags_of. simpl.
  by rewrite lookup_insert_ne.
Qed.
End CreateAndTag.

(** Closes the side condition of [for_each_none] and [for_each_skip]: an
    untagged resource makes the loop body go on, leaving the world as it is. *)
Ltac untagged H :=
  let x := fresh "x" in
  let Hx := fresh "Hx" in
  intros x Hx; cbv zeta; rewrite tag_test;
  rewrite bool_decide_eq_false_2 by (apply H; done); reflexivity.

(** ** Customer gateways *)
Module CustomerGatewayFacts.
Import CustomerGateway.
Implicit Types (w : World CustomerGateway) (p : Params).

Lemma delete_customer_gateway_spec p w :
  let ids := cg_id <$> filter (λ r, has_name_tag w (name p) (cg_id r))
                              (resources w) in
  delete_customer_gateway p w = (Return ids, deleted cg_id ids w).
Proof.
  unfold delete_customer_gateway. cbv zeta.
  erewrite run_bind by reflexivity.
  by rewrite delete_loop_spec.
Qed.

(** C6. The absent path of the customer gateway module deletes every
    listed gateway that carries the tag ("Name", name), not only the first:
    the returned list is exactly the ids of the tagged gateways in scan
    order, one delete call is issued per id in that order, the deleted
    gateways leave the listing, and [changed] is true iff the list is not
    empty.  With no tagged gateway the list is empty, [changed] is false
    and no call is issued. *)
Theorem delete_customer_gateway_all_tagged p w
    (Hstate : state p = absent) (Hregion : truthy (region p) = true) :
  let ids := cg_id <$> filter (λ r, has_name_tag w (name p) (cg_id r))
                              (resources w) in
  ∃ w',
    delete_customer_gateway p w = (Return ids, w')
    ∧ main p w = (Return {[ "changed" := JBool (bool_decide (ids ≠ []));
                            "removed_ids" := JList ids ]}, w')
    ∧ calls w' = calls w ++ (Delete <$> ids)
    ∧ resources w' = filter (λ r, cg_id r ∉ ids) (resources w)
    ∧ tags w' = tags w.
Proof.
  intros ids. exists (deleted cg_id ids w).
  pose proof (delete_customer_gateway_spec p w) as Hdel. cbv zeta in Hdel.
  fold ids in Hdel.
  split; [done|]. split; [|split; [|split]].
  - unfold main. cbv zeta. rewrite Hstate, Hregion.
    erewrite run_bind by reflexivity.
    erewrite run_bind by exact Hdel.
    unfold exit_json, ret. do 3 f_equal.
    destruct ids; simpl; repeat case_bool_decide; try done; simpl in *; lia.
  - apply deleted_calls.
  - apply deleted_resources.
  - apply deleted_tags.
Qed.

Definition new_gateway p w : CustomerGateway :=
  mkCustomerGateway (next_id w) (type p) (ip_address p) (bgp_asn p).

(** No listed gateway carries the name: the gateway is created and tagged. *)
Lemma create_customer_gateway_new p w :
  (∀ r, r ∈ resources w → ¬ has_name_tag w (name p) (cg_id r)) →
  create_customer_gateway p w
  = (Return (next_id w, true),
     created_and_tagged (new_gateway p w) (next_id w) (name p) w).
Proof.
  intros Hnone. unfold create_customer_gateway. cbv zeta.
  erewrite run_bind by reflexivity.
  erewrite run_bind by (apply for_each_none; untagged Hnone).
  reflexivity.
Qed.

(** The first tagged gateway decides the run: with equal attributes it is
    reported unchanged, otherwise the module fails; either way the world
    stays as it is. *)
Lemma create_customer_gateway_found p w pre g post :
  resources w = pre ++ g :: post →
  (∀ r, r ∈ pre → ¬ has_name_tag w (name p) (cg_id r)) →
  has_name_tag w (name p) (cg_id g) →
  create_customer_gateway p w
  = (if bool_decide (type p = cg_type g ∧ ip_address p = cg_ip_address g
                     ∧ bgp_asn p = cg_bgp_asn g)
     then Return (cg_id g, false)
     else FailJson "Customer gateway cannot be modified", w).
Proof.
  intros Hres Hpre Hg. unfold create_customer_gateway. cbv zeta.
  erewrite run_bind by reflexivity. rewrite Hres.
  unfold bind at 1. rewrite for_each_skip by untagged Hpre.
  cbn [for_each]. unfold bind at 1. rewrite tag_test.
  rewrite bool_decide_eq_true_2 by done.
  repeat case_bool_decide; try reflexivity; exfalso; tauto.
Qed.

(** C7. Running the present path of the customer gateway module twice is
    idempotent: from a state in which no listed gateway carries the name
    (and the provider hands out an id that is not in use), the first run
    reports the new id with changed=true, the second run reports the same
    id with changed=false and leaves the state, and so the log of issued
    calls, exactly as the first run left it. *)
Theorem create_customer_gateway_idempotent p w
    (Hnone : ∀ r, r ∈ resources w → ¬ has_name_tag w (name p) (cg_id r))
    (Hfresh : next_id w ∉ cg_id <$> resources w) :
  ∃ w1,
    create_customer_gateway p w = (Return (next_id w, true), w1)
    ∧ create_customer_gateway p w1 = (Return (next_id w, false), w1).
Proof.
  eexists. split; [by apply create_customer_gateway_new|].
  rewrite (create_customer_gateway_found p _ (resources w) (new_gateway p w) []).
  - by rewrite bool_decide_eq_true_2.
  - reflexivity.
  - intros r Hr. rewrite created_and_tagged_old; [by apply Hnone|].
    intros E. apply Hfresh. rewrite <- E. by apply list_elem_of_fmap_2.
  - apply created_and_tagged_new.
Qed.
End CustomerGatewayFacts.

(** ** DHCP option sets *)
Module DhcpOptionsSetFacts.
Import DhcpOptionsSet.
Implicit Types (w : World DhcpOptions) (p : Params).

(** The normalized mapping of the desired options. *)
Definition desired_options p : gmap string (list string) :=
  build_options (domain p) (domain_name_servers p) (ntp_servers p)
                (netbios_name_servers p) (netbios_node_type p).

(** Two option mappings with the same keys and, under each key, the same
    values as an unordered collection. *)
Definition same_values (a b : gmap string (list string)) : Prop :=
  (list_to_set <$> a : gmap string (gset string)) = (list_to_set <$> b).

(** C2 (as the code has it). When the first option set that carries the
    name is found, the run reports it unchanged exactly when the desired
    normalized mapping equals the stored mapping as a dictionary of lists,
    every server list in the same order; any other stored mapping is
    rejected with "DHCP options cannot be modified".  Nothing is issued in
    either case. *)
Theorem create_dhcp_options_set_found p w pre d post
    (Hres : resources w = pre ++ d :: post)
    (Hpre : ∀ r, r ∈ pre → ¬ has_name_tag w (name p) (do_id r))
    (Hd : has_name_tag w (name p) (do_id d)) :
  create_dhcp_options_set p w
  = (if bool_decide (desired_options p = options d)
     then Return (do_id d, false)
     else FailJson "DHCP options cannot be modified", w).
Proof.
  unfold create_dhcp_options_set, desired_options. cbv zeta.
  erewrite run_bind by reflexivity. rewrite Hres.
  unfold bind at 1. rewrite for_each_skip by untagged Hpre.
  cbn [for_each]. unfold bind at 1. rewrite tag_test.
  rewrite bool_decide_eq_true_2 by done.
  repeat case_bool_decide; try reflexivity; exfalso; tauto.
Qed.

(** The option set of the module's own example, tagged with its name. *)
Definition stored_example : DhcpOptions :=
  mkDhcpOptions "dopt-d0a543b5"
    {[ "domain-name" := ["hq.mycorp.net"];
       "domain-name-servers" := ["172.30.0.1"; "172.30.0.2"] ]}.

Definition world_example : World DhcpOptions :=
  mkWorld [stored_example]
          {[ "dopt-d0a543b5" := {[ "Name" := "options-set-name" ]} ]}
          (λ n, "dopt-" +:+ pretty n) 0 [] 0 0 (λ _ _, "available").

Definition params_same_order : Params :=
  mkParams "options-set-name" (Some "hq.mycorp.net")
           (Some ["172.30.0.1"; "172.30.0.2"]) None None None
           present (Some "eu-west-1").

Definition params_other_order : Params :=
  mkParams "options-set-name" (Some "hq.mycorp.net")
           (Some ["172.30.0.2"; "172.30.0.1"]) None None None
           present (Some "eu-west-1").

Example same_order_unchanged :
  create_dhcp_options_set params_same_order world_example
  = (Return ("dopt-d0a543b5", false), world_example).
Proof. vm_compute. reflexivity. Qed.

Lemma create_dhcp_options_set_found_witness :
  desired_options params_same_order = options stored_example
  ∧ create_dhcp_options_set params_same_order world_example
    = (if bool_decide (desired_options params_same_order = options stored_example)
       then Return ("dopt-d0a543b5", false)
       else FailJson "DHCP options cannot be modified", world_example).
Proof.
  split; [vm_compute; reflexivity|].
  apply (create_dhcp_options_set_found params_same_order world_example
           [] stored_example []).
  - reflexivity.
  - intros r Hr. by apply not_elem_of_nil in Hr.
  - vm_compute. reflexivity.
Defined.

(** C2 (as the claim has it) fails: the same keys and the same servers,
    listed in the other order, are rejected. *)
Lemma server_order_is_compared :
  same_values (desired_options params_other_order) (options stored_example)
  ∧ has_name_tag world_example (name params_other_order) (do_id stored_example)
  ∧ create_dhcp_options_set params_other_order world_example
    = (FailJson "DHCP options cannot be modified", world_example).
Proof. split; [|split]; vm_compute; reflexivity. Qed.

Definition params_absent : Params :=
  mkParams "options-set-name" None None None None None
           absent (Some "eu-west-1").

(** C4 on the DHCP module. An absent run that deletes the tagged option set
    reports only [changed]: the result has no [removed_ids] entry, while
    the ids were collected by [delete_dhcp_options_set]. *)
Theorem dhcp_absent_result_lacks_removed_ids :
  ∃ w',
    delete_dhcp_options_set params_absent world_example
    = (Return ["dopt-d0a543b5"], w')
    ∧ main params_absent world_example
      = (Return {[ "changed" := JBool true ]}, w')
    ∧ ({[ "changed" := JBool true ]} : gmap string Json) !! "removed_ids" = None
    ∧ calls w' = [Delete "dopt-d0a543b5"].
Proof.
  eexists. split; [|split; [|split]].
  - vm_compute. reflexivity.
  - vm_compute. reflexivity.
  - vm_compute. reflexivity.
  - vm_compute. reflexivity.
Qed.
End DhcpOptionsSetFacts.

(** ** VPN connections *)
Module VpnConnectionFacts.
Import VpnConnection.
Implicit Types (w : World VpnConnection) (p : Params) (c : VpnConnection).

(** The world after one state query. *)
Definition polled w : World VpnConnection :=
  mkWorld (resources w) (tags w) (id_supply w) (issued w) (calls w)
          (now w) (S (polls w)) (state_at w).

(** The world after one <<time.sleep(1)>>. *)
Definition slept w : World VpnConnection :=
  mkWorld (resources w) (tags w) (id_supply w) (issued w) (calls w)
          (now w + 1) (polls w) (state_at w).

Lemma get_connection_state_world c w :
  snd (get_connection_state c w) = polled w.
Proof.
  unfold get_connection_state, bind, get_all_by_id. cbv zeta.
  by destruct (_ <$> filter _ (resources w)).
Qed.

(** A listed connection answers with the state of this query. *)
Lemma get_connection_state_listed c w :
  c ∈ resources w →
  get_connection_state c w
  = (Return (state_at w (vc_id c) (polls w)), polled w).
Proof.
  intros Hc. unfold get_connection_state, bind, get_all_by_id. cbv zeta.
  destruct (filter (λ r, vc_id r ∈ [vc_id c]) (resources w))
    as [|r0 rest] eqn:Hf.
  - exfalso. eapply (not_elem_of_nil c). rewrite <- Hf.
    apply list_elem_of_filter. split; [left|done].
  - assert (r0 ∈ filter (λ r, vc_id r ∈ [vc_id c]) (resources w)) as Hr0
      by (rewrite Hf; left).
    apply list_elem_of_filter in Hr0 as [Hid _].
    apply list_elem_of_singleton in Hid. simpl. by rewrite Hid.
Qed.

(** One turn of the loop that neither returns nor fails. *)
Lemma await_loop_turn fuel c awaited deadline initial changed w :
  c ∈ resources w →
  state_at w (vc_id c) (polls w) ≠ awaited →
  state_at w (vc_id c) (polls w) = "pending" ∨ now w < deadline →
  await_loop (S fuel) c awaited deadline initial changed w
  = await_loop fuel c awaited deadline initial changed (slept (polled w)).
Proof.
  intros Hc Hne Hgo. cbn [await_loop].
  rewrite (run_bind _ _ _ _ _ (get_connection_state_listed c w Hc)).
  rewrite bool_decide_eq_false_2 by done.
  destruct Hgo as [Hp|Hlt].
  - rewrite bool_decide_eq_true_2 by done. reflexivity.
  - case_bool_decide; [reflexivity|].
    unfold bind at 1. unfold bind at 1. unfold time_time.
    replace (now (polled w) >=? deadline) with false; [reflexivity|].
    symmetry. rewrite Z.geb_leb. apply Z.leb_gt. exact Hlt.
Qed.

(** The loop issues no mutating call, however it ends. *)
Lemma await_loop_calls fuel c awaited deadline initial changed w :
  calls (snd (await_loop fuel c awaited deadline initial changed w)) = calls w.
Proof.
  revert w. induction fuel as [|fuel IH]; intros w; [done|].
  cbn [await_loop]. unfold bind at 1.
  pose proof (get_connection_state_world c w) as Hw.
  destruct (get_connection_state c w) as [[s| | |] w1]; simpl in Hw; subst w1;
    try done.
  case_bool_decide; [done|].
  unfold bind at 1.
  case_bool_decide.
  - unfold ret at 1. unfold bind at 1, time_sleep at 1. by rewrite IH.
  - unfold bind at 1, time_time at 1.
    destruct (now (polled w) >=? deadline); [done|].
    unfold ret at 1. unfold bind at 1, time_sleep at 1. by rewrite IH.
Qed.

(** While every query answers "pending" the deadline is never looked at:
    the loop only sleeps and polls again. *)
Lemma await_loop_pending fuel c awaited deadline initial changed w :
  c ∈ resources w →
  awaited ≠ "pending" →
  (∀ n, state_at w (vc_id c) n = "pending") →
  fst (await_loop fuel c awaited deadline initial changed w) = Running
  ∧ now (snd (await_loop fuel c awaited deadline initial changed w))
    = now w + Z.of_nat fuel.
Proof.
  intros Hc Hne. revert w Hc.
  induction fuel as [|fuel IH]; intros w Hc Hp.
  - simpl. split; [done|lia].
  - rewrite await_loop_turn; [|done| |].
    + destruct (IH (slept (polled w)) Hc Hp) as [IH1 IH2].
      split; [done|]. rewrite IH2. simpl. lia.
    + rewrite Hp. congruence.
    + left. apply Hp.
Qed.

(** The loop returns at its [k]-th turn when the awaited state is seen
    there and every earlier turn saw "pending" or came before the
    deadline. *)
Lemma await_loop_returns k fuel c awaited deadline initial changed w :
  c ∈ resources w →
  (k < fuel)%nat →
  state_at w (vc_id c) (polls w + k) = awaited →
  (∀ j, (j < k)%nat →
        state_at w (vc_id c) (polls w + j) ≠ awaited
        ∧ (state_at w (vc_id c) (polls w + j) = "pending"
           ∨ now w + Z.of_nat j < deadline)) →
  fst (await_loop fuel c awaited deadline initial changed w) = Return tt.
Proof.
  revert fuel w. induction k as [|k IH]; intros fuel w Hc Hk Hat Hbefore.
  - destruct fuel as [|fuel]; [lia|]. cbn [await_loop].
    rewrite (run_bind _ _ _ _ _ (get_connection_state_listed c w Hc)).
    rewrite Nat.add_0_r in Hat.
    by rewrite bool_decide_eq_true_2.
  - destruct fuel as [|fuel]; [lia|].
    destruct (Hbefore 0%nat ltac:(lia)) as [H0 H0'].
    rewrite Nat.add_0_r in H0, H0'. rewrite Z.add_0_r in H0'.
    rewrite await_loop_turn by done.
    apply IH; [done|lia| |]; simpl.
    + by rewrite Nat.add_succ_r in Hat.
    + intros j Hj. destruct (Hbefore (S j) ltac:(lia)) as [H1 H2].
      rewrite Nat.add_succ_r in H1, H2. split; [done|].
      destruct H2 as [H2|H2]; [by left|right; lia].
Qed.

(** The loop fails with the timeout message at its [k]-th turn when that
    turn sees a state that is neither the awaited one nor "pending" at or
    after the deadline, and no earlier turn ended the loop. *)
Lemma await_loop_times_out k fuel c awaited deadline initial changed w :
  c ∈ resources w →
  (k < fuel)%nat →
  state_at w (vc_id c) (polls w + k) ≠ awaited →
  state_at w (vc_id c) (polls w + k) ≠ "pending" →
  deadline ≤ now w + Z.of_nat k →
  (∀ j, (j < k)%nat →
        state_at w (vc_id c) (polls w + j) ≠ awaited
        ∧ (state_at w (vc_id c) (polls w + j) = "pending"
           ∨ now w + Z.of_nat j < deadline)) →
  fst (await_loop fuel c awaited deadline initial changed w)
  = FailJson (timeout_msg (vc_id c) awaited).
Proof.
  revert fuel w. induction k as [|k IH];
    intros fuel w Hc Hk Hna Hnp Hlate Hbefore.
  - destruct fuel as [|fuel]; [lia|]. cbn [await_loop].
    rewrite (run_bind _ _ _ _ _ (get_connection_state_listed c w Hc)).
    rewrite Nat.add_0_r in Hna, Hnp. rewrite Z.add_0_r in Hlate.
    rewrite bool_decide_eq_false_2 by done.
    rewrite bool_decide_eq_false_2 by done.
    unfold bind at 1. unfold bind at 1. unfold time_time.
    replace (now (polled w) >=? deadline) with true; [reflexivity|].
    symmetry. rewrite Z.geb_leb. apply Z.leb_le. exact Hlate.
  - destruct fuel as [|fuel]; [lia|].
    destruct (Hbefore 0%nat ltac:(lia)) as [H0 H0'].
    rewrite Nat.add_0_r in H0, H0'. rewrite Z.add_0_r in H0'.
    rewrite await_loop_turn by done.
    apply IH; simpl; [done|lia| | | |].
    + by rewrite Nat.add_succ_r in Hna.
    + by rewrite Nat.add_succ_r in Hnp.
    + lia.
    + intros j Hj. destruct (Hbefore (S j) ltac:(lia)) as [H1 H2].
      rewrite Nat.add_succ_r in H1, H2. split; [done|].
      destruct H2 as [H2|H2]; [by left|right; lia].
Qed.

(** What the turns of the loop see after the connection was created in
    [w]: query [polls w] is the snapshot of the initial state, turn [j] of
    the loop is query [S (polls w) + j], made [j] seconds after the start. *)
Definition keeps_waiting w (id : string) (timeout : Z) (j : nat) : Prop :=
  state_at w id (S (polls w) + j) ≠ "available"
  ∧ (state_at w id (S (polls w) + j) = "pending" ∨ Z.of_nat j < timeout).

Definition becomes_available w (id : string) (timeout : Z) (k : nat) : Prop :=
  state_at w id (S (polls w) + k) = "available"
  ∧ ∀ j, (j < k)%nat → keeps_waiting w id timeout j.

Definition gives_up w (id : string) (timeout : Z) (k : nat) : Prop :=
  state_at w id (S (polls w) + k) ≠ "available"
  ∧ state_at w id (S (polls w) + k) ≠ "pending"
  ∧ timeout ≤ Z.of_nat k
  ∧ ∀ j, (j < k)%nat → keeps_waiting w id timeout j.

Lemma await_start fuel c awaited timeout w :
  c ∈ resources w →
  await_vpn_connection_state fuel c awaited timeout w
  = await_loop fuel c awaited (now w + timeout)
               (state_at w (vc_id c) (polls w)) false (polled w).
Proof.
  intros Hc. unfold await_vpn_connection_state. cbv zeta.
  erewrite run_bind by reflexivity.
  by rewrite (run_bind _ _ _ _ _ (get_connection_state_listed c w Hc)).
Qed.

Lemma await_calls fuel c awaited timeout w :
  calls (snd (await_vpn_connection_state fuel c awaited timeout w)) = calls w.
Proof.
  unfold await_vpn_connection_state. cbv zeta.
  erewrite run_bind by reflexivity. unfold bind at 1.
  pose proof (get_connection_state_world c w) as Hw.
  destruct (get_connection_state c w) as [[s| | |] w1]; simpl in Hw; subst w1;
    try done.
  by rewrite await_loop_calls.
Qed.

Lemma await_returns k fuel c timeout w :
  c ∈ resources w → (k < fuel)%nat →
  becomes_available w (vc_id c) timeout k →
  fst (await_vpn_connection_state fuel c "available" timeout w) = Return tt.
Proof.
  intros Hc Hk [Hat Hbefore]. rewrite await_start by done.
  apply (await_loop_returns k); [done..|].
  intros j Hj. destruct (Hbefore j Hj) as [H1 H2]. split; [done|].
  destruct H2 as [H2|H2]; [by left|right; simpl; lia].
Qed.

Lemma await_times_out k fuel c timeout w :
  c ∈ resources w → (k < fuel)%nat →
  gives_up w (vc_id c) timeout k →
  fst (await_vpn_connection_state fuel c "available" timeout w)
  = FailJson (timeout_msg (vc_id c) "available").
Proof.
  intros Hc Hk (Hna & Hnp & Hlate & Hbefore). rewrite await_start by done.
  apply (await_loop_times_out k); [done..|simpl; lia|].
  intros j Hj. destruct (Hbefore j Hj) as [H1 H2]. split; [done|].
  destruct H2 as [H2|H2]; [by left|right; simpl; lia].
Qed.

Definition new_connection p w : VpnConnection :=
  mkVpnConnection (next_id w) (type p) (customer_gateway_id p)
                  (vpn_gateway_id p) (static_routes_only p).

(** No listed connection carries the name: the connection is created and
    tagged, and then awaited if [wait] is set. *)
Lemma create_vpn_connection_new fuel p w :
  (∀ r, r ∈ resources w → ¬ has_name_tag w (name p) (vc_id r)) →
  create_vpn_connection fuel p w
  = ((if wait p
      then await_vpn_connection_state fuel (new_connection p w) "available"
                                      (wait_timeout p)
      else ret tt);;
     ret (next_id w, true))
      (created_and_tagged (new_connection p w) (next_id w) (name p) w).
Proof.
  intros Hnone. unfold create_vpn_connection. cbv zeta.
  erewrite run_bind by reflexivity.
  erewrite run_bind by (apply for_each_none; untagged Hnone).
  reflexivity.
Qed.

Lemma create_vpn_connection_found fuel p w pre c post :
  resources w = pre ++ c :: post →
  (∀ r, r ∈ pre → ¬ has_name_tag w (name p) (vc_id r)) →
  has_name_tag w (name p) (vc_id c) →
  create_vpn_connection fuel p w
  = (if bool_decide (type p = vc_type c
                     ∧ customer_gateway_id p = vc_customer_gateway_id c
                     ∧ vpn_gateway_id p = vc_vpn_gateway_id c)
     then Return (vc_id c, false)
     else FailJson "VPN connection cannot be modified", w).
Proof.
  intros Hres Hpre Hc. unfold create_vpn_connection. cbv zeta.
  erewrite run_bind by reflexivity. rewrite Hres.
  unfold bind at 1. rewrite for_each_skip by untagged Hpre.
  cbn [for_each]. unfold bind at 1. rewrite tag_test.
  rewrite bool_decide_eq_true_2 by done.
  repeat case_bool_decide; try reflexivity; exfalso; tauto.
Qed.

(** C9. When the first connection that carries the name has the desired
    type, customer gateway and VPN gateway, the run reports its id with
    changed=false and issues nothing, whatever the desired and the stored
    routing mode are: [static_routes_only] is not compared. *)
Theorem create_vpn_connection_ignores_routing fuel p w pre c post
    (Hres : resources w = pre ++ c :: post)
    (Hpre : ∀ r, r ∈ pre → ¬ has_name_tag w (name p) (vc_id r))
    (Hc : has_name_tag w (name p) (vc_id c))
    (Htype : type p = vc_type c)
    (Hcgw : customer_gateway_id p = vc_customer_gateway_id c)
    (Hvgw : vpn_gateway_id p = vc_vpn_gateway_id c) :
  create_vpn_connection fuel p w = (Return (vc_id c, false), w).
Proof.
  rewrite (create_vpn_connection_found fuel p w pre c post) by done.
  by rewrite bool_decide_eq_true_2.
Qed.
End VpnConnectionFacts.

(** ** VPN gateways *)
Module VpnGatewayFacts.
Import VpnGateway.
Implicit Types (w : World VpnGateway) (p : Params) (g : VpnGateway).

(** The world after the detach calls of [gw] from [vpcs], in that order. *)
Definition detached (gw : string) (vpcs : list string) w : World VpnGateway :=
  foldl (λ w vpc, snd (detach_vpn_gateway gw vpc w)) w vpcs.

Lemma detached_calls gw vpcs w :
  calls (detached gw vpcs w) = calls w ++ (DetachVpnGateway gw <$> vpcs).
Proof.
  revert w. induction vpcs as [|v vpcs IH]; intros w.
  - simpl. by rewrite app_nil_r.
  - change (detached gw (v :: vpcs) w)
      with (detached gw vpcs (snd (detach_vpn_gateway gw v w))).
    rewrite IH. simpl. by rewrite <- app_assoc.
Qed.

Lemma detached_tags gw vpcs w : tags (detached gw vpcs w) = tags w.
Proof.
  revert w. induction vpcs as [|v vpcs IH]; intros w; [done|].
  change (detached gw (v :: vpcs) w)
    with (detached gw vpcs (snd (detach_vpn_gateway gw v w))).
  by rewrite IH.
Qed.

(** The attachments that the loop detaches: those to another VPC. *)
Definition stale (vpc : string) (atts : list Attachment) : list Attachment :=
  filter (λ a, att_vpc_id a ≠ vpc) atts.

(** The loop over the attachments of the matched gateway. *)
Lemma attachments_loop_spec gw vpc atts changed vpc_found w :
  for_fold atts (changed, vpc_found)
    (λ '(changed, vpc_found) attachment,
      if bool_decide (att_vpc_id attachment ≠ vpc) then
        detach_vpn_gateway gw (att_vpc_id attachment);;
        ret (true, vpc_found)
      else ret (changed, true)) w
  = (Return (changed || bool_decide (stale vpc atts ≠ []),
             vpc_found || bool_decide (vpc ∈ att_vpc_id <$> atts)),
     detached gw (att_vpc_id <$> stale vpc atts) w).
Proof.
  revert changed vpc_found w.
  induction atts as [|a atts IH]; intros changed vpc_found w.
  - simpl. unfold ret. by rewrite !orb_false_r.
  - cbn [for_fold]. unfold bind at 1. unfold stale. cbv beta iota.
    destruct (decide (att_vpc_id a ≠ vpc)) as [Ha|Ha];
      [rewrite (bool_decide_eq_true_2 (att_vpc_id a ≠ vpc)) by done
      |rewrite (bool_decide_eq_false_2 (att_vpc_id a ≠ vpc)) by done].
    + rewrite filter_cons_True by done.
      unfold bind at 1, detach_vpn_gateway at 1, ret at 1.
      rewrite IH. f_equal. f_equal.
      rewrite (bool_decide_eq_true_2 (_ :: _ ≠ [])) by done.
      rewrite orb_true_r. simpl. f_equal. f_equal.
      apply bool_decide_ext. rewrite elem_of_cons.
      split; [by right|]. intros [E|E]; [by symmetry in E|done].
    + rewrite filter_cons_False by done. unfold ret at 1.
      rewrite IH. f_equal. f_equal. simpl.
      rewrite (bool_decide_eq_true_2 (vpc ∈ _ :: _)).
      * by rewrite orb_true_r.
      * apply dec_stable in Ha. rewrite Ha. left.
Qed.

(** The calls that bring the attachments of [g] to the desired VPC. *)
Definition detaches p g : list (Call VpnGateway) :=
  (λ a, DetachVpnGateway (vg_id g) (att_vpc_id a))
    <$> stale (vpc_id p) (attachments g).

Definition attach p g : list (Call VpnGateway) :=
  if bool_decide (vpc_id p ∈ att_vpc_id <$> attachments g) then []
  else [AttachVpnGateway (vg_id g) (vpc_id p)].

(** The first tagged gateway decides the run.  Its attachments are brought
    to the desired VPC first; the type is compared after that. *)
Lemma create_vpn_gateway_found p w pre g post :
  resources w = pre ++ g :: post →
  (∀ r, r ∈ pre → ¬ has_name_tag w (name p) (vg_id r)) →
  has_name_tag w (name p) (vg_id g) →
  ∃ w',
    create_vpn_gateway p w
    = (if bool_decide (type p = vg_type g)
       then Return (vg_id g, bool_decide (detaches p g ++ attach p g ≠ []))
       else FailJson "VPN gateway cannot be modified in that way", w')
    ∧ calls w' = calls w ++ detaches p g ++ attach p g
    ∧ tags w' = tags w.
Proof.
  intros Hres Hpre Hg. unfold create_vpn_gateway. cbv zeta.
  erewrite run_bind by reflexivity. rewrite Hres.
  unfold bind at 1. rewrite for_each_skip by untagged Hpre.
  cbn [for_each]. unfold bind at 1. rewrite tag_test.
  rewrite bool_decide_eq_true_2 by done.
  unfold bind at 1. rewrite attachments_loop_spec. simpl orb.
  unfold detaches, attach.
  set (st := stale (vpc_id p) (attachments g)).
  pose proof (detached_calls (vg_id g) (att_vpc_id <$> st) w) as Hcalls.
  pose proof (detached_tags (vg_id g) (att_vpc_id <$> st) w) as Htags.
  rewrite <- list_fmap_compose in Hcalls.
  set (w1 := detached (vg_id g) (att_vpc_id <$> st) w) in *.
  destruct (bool_decide (vpc_id p ∈ att_vpc_id <$> attachments g)); simpl negb;
    cbv iota.
  - exists w1. rewrite app_nil_r. split; [|done].
    unfold bind at 1, ret at 1.
    assert (bool_decide (st ≠ [])
            = bool_decide ((λ a, @DetachVpnGateway VpnGateway (vg_id g)
                                                   (att_vpc_id a))
                             <$> st ≠ [])) as ->
      by (apply bool_decide_ext; by destruct st).
    repeat case_bool_decide; try reflexivity; exfalso; tauto.
  - eexists. split; [|split].
    + unfold bind at 1. unfold bind at 1.
      unfold attach_vpn_gateway at 1, ret at 1.
      rewrite (bool_decide_eq_true_2 (_ ++ [_] ≠ []))
        by (intros E; by apply app_eq_nil in E as [_ ?]).
      repeat case_bool_decide; try reflexivity; exfalso; tauto.
    + simpl. rewrite Hcalls. by rewrite <- app_assoc.
    + done.
Qed.

(** C5 (as the code has it). When the first gateway that carries the name
    has the desired type, every attachment to another VPC is detached, one
    call each and in the order of the listing; then, if the gateway was not
    attached to the desired VPC, one attach call follows.  The run reports
    the gateway id, with changed=true iff one of these calls was issued. *)
Theorem create_vpn_gateway_converges_attachments p w pre g post
    (Hres : resources w = pre ++ g :: post)
    (Hpre : ∀ r, r ∈ pre → ¬ has_name_tag w (name p) (vg_id r))
    (Hg : has_name_tag w (name p) (vg_id g))
    (Htype : type p = vg_type g) :
  ∃ w',
    create_vpn_gateway p w
    = (Return (vg_id g, bool_decide (detaches p g ++ attach p g ≠ [])), w')
    ∧ calls w' = calls w ++ detaches p g ++ attach p g.
Proof.
  destruct (create_vpn_gateway_found p w pre g post Hres Hpre Hg)
    as (w' & Hrun & Hcalls & _).
  exists w'. split; [|done].
  by rewrite bool_decide_eq_true_2 in Hrun.
Qed.

Definition new_vpn_gateway p w : VpnGateway :=
  mkVpnGateway (next_id w) (type p) [].

(** C10. When no listed gateway carries the name, the gateway is created,
    then tagged, then attached to the desired VPC by one attach call, and
    the run reports the new id with changed=true; the listing then shows
    the new gateway attached to that VPC. *)
Theorem create_vpn_gateway_new_is_attached p w
    (Hnone : ∀ r, r ∈ resources w → ¬ has_name_tag w (name p) (vg_id r)) :
  ∃ w1,
    create_vpn_gateway p w = (Return (next_id w, true), w1)
    ∧ calls w1
      = calls w ++ [Create (new_vpn_gateway p w);
                    CreateTags (next_id w) {[ "Name" := name p ]};
                    AttachVpnGateway (next_id w) (vpc_id p)]
    ∧ mkVpnGateway (next_id w) (type p) [mkAttachment (vpc_id p)]
      ∈ resources w1.
Proof.
  eexists. split; [|split].
  - unfold create_vpn_gateway. cbv zeta.
    erewrite run_bind by reflexivity.
    erewrite run_bind by (apply for_each_none; untagged Hnone).
    reflexivity.
  - simpl. by rewrite <- !app_assoc.
  - simpl. rewrite fmap_app. apply elem_of_app. right. simpl.
    rewrite bool_decide_eq_true_2 by done. left.
Qed.
End VpnGatewayFacts.

(** ** The present path without a match *)
Module PresentWithoutMatch.
Import VpnConnectionFacts.

Lemma bind_ret_calls {R A B} (m : M R A) (b : B) (w : World R) :
  calls (snd ((m;; ret b) w)) = calls (snd (m w)).
Proof. unfold bind. by destruct (m w) as [[a| | |] w']. Qed.

(** C8 (as the code has it). When the scan finds no resource that carries
    the name, one resource is created from the desired attributes and then
    tagged with ("Name", name) by a separate call, and no other mutating
    call is issued.  The customer gateway module then reports the new id
    with changed=true.  So does the VPN connection module when [wait] is
    not set, or when [wait] is set and the await returns: some turn of the
    loop sees "available" while every earlier turn saw "pending" or came
    before the deadline.  When a turn at or after the deadline sees a state
    that is neither "available" nor "pending", the run fails with the
    timeout message instead. *)
Theorem create_without_match
    (pc : CustomerGateway.Params)
    (wc : World CustomerGateway.CustomerGateway)
    (fuel : nat)
    (pv : VpnConnection.Params)
    (wv : World VpnConnection.VpnConnection)
    (Hc : ∀ r, r ∈ resources wc →
               ¬ has_name_tag wc (CustomerGateway.name pc)
                              (CustomerGateway.cg_id r))
    (Hv : ∀ r, r ∈ resources wv →
               ¬ has_name_tag wv (VpnConnection.name pv)
                              (VpnConnection.vc_id r)) :
  let g := CustomerGatewayFacts.new_gateway pc wc in
  let c := new_connection pv wv in
  let run := VpnConnection.create_vpn_connection fuel pv wv in
  (∃ w1,
      CustomerGateway.create_customer_gateway pc wc
      = (Return (next_id wc, true), w1)
      ∧ calls w1
        = calls wc ++ [Create g;
                       CreateTags (next_id wc)
                                  {[ "Name" := CustomerGateway.name pc ]}]
      ∧ resources w1 = resources wc ++ [g])
  ∧ calls (snd run)
    = calls wv ++ [Create c;
                   CreateTags (next_id wv) {[ "Name" := VpnConnection.name pv ]}]
  ∧ (VpnConnection.wait pv = false → fst run = Return (next_id wv, true))
  ∧ (∀ k, VpnConnection.wait pv = true → (k < fuel)%nat →
          becomes_available wv (next_id wv) (VpnConnection.wait_timeout pv) k →
          fst run = Return (next_id wv, true))
  ∧ (∀ k, VpnConnection.wait pv = true → (k < fuel)%nat →
          gives_up wv (next_id wv) (VpnConnection.wait_timeout pv) k →
          fst run
          = FailJson (VpnConnection.timeout_msg (next_id wv) "available")).
Proof.
  intros g c run. split; [|split; [|split; [|split]]].
  - eexists. split; [by apply CustomerGatewayFacts.create_customer_gateway_new|].
    split; [apply created_and_tagged_calls|done].
  - unfold run. rewrite create_vpn_connection_new by done.
    rewrite bind_ret_calls. destruct (VpnConnection.wait pv).
    + rewrite await_calls. apply created_and_tagged_calls.
    + apply created_and_tagged_calls.
  - intros Hwait. unfold run.
    rewrite create_vpn_connection_new by done. by rewrite Hwait.
  - intros k Hwait Hk Hav. unfold run.
    rewrite create_vpn_connection_new by done. rewrite Hwait.
    unfold bind at 1.
    match goal with
    | |- context [VpnConnection.await_vpn_connection_state ?f ?c' ?a ?t ?w] =>
        pose proof (await_returns k f c' t w) as Hrun
    end.
    destruct (VpnConnection.await_vpn_connection_state _ _ _ _ _) as [o w'].
    simpl in Hrun. rewrite Hrun; [done| |done|exact Hav].
    apply elem_of_app. right. left.
  - intros k Hwait Hk Hup. unfold run.
    rewrite create_vpn_connection_new by done. rewrite Hwait.
    unfold bind at 1.
    match goal with
    | |- context [VpnConnection.await_vpn_connection_state ?f ?c' ?a ?t ?w] =>
        pose proof (await_times_out k f c' t w) as Hrun
    end.
    destruct (VpnConnection.await_vpn_connection_state _ _ _ _ _) as [o w'].
    simpl in Hrun. rewrite Hrun; [done| |done|exact Hup].
    apply elem_of_app. right. left.
Qed.
End PresentWithoutMatch.

(** * Runs on concrete accounts *)

Definition ids (prefix : string) (n : nat) : string := prefix +:+ pretty n.

Module CustomerGatewayRuns.
Import CustomerGateway CustomerGatewayFacts.

(** Three gateways, the last two tagged "cgw-b". *)
Definition account : World CustomerGateway :=
  mkWorld [mkCustomerGateway "cgw-1" "ipsec.1" "10.0.0.1" 65000;
           mkCustomerGateway "cgw-2" "ipsec.1" "10.0.0.2" 65000;
           mkCustomerGateway "cgw-3" "ipsec.1" "10.0.0.3" 65000]
          {[ "cgw-1" := {[ "Name" := "cgw-a" ]};
             "cgw-2" := {[ "Name" := "cgw-b" ]};
             "cgw-3" := {[ "Name" := "cgw-b"; "env" := "test" ]} ]}
          (ids "cgw-new-") 0 [] 0 0 (λ _ _, "available").

Definition remove_b : Params :=
  mkParams "cgw-b" "ipsec.1" "10.0.0.2" 65000 absent (Some "eu-west-1").

Definition want_c : Params :=
  mkParams "cgw-c" "ipsec.1" "127.0.0.1" 65000 present (Some "eu-west-1").

Lemma delete_customer_gateway_all_tagged_witness :
  ∃ w',
    delete_customer_gateway remove_b account = (Return ["cgw-2"; "cgw-3"], w')
    ∧ main remove_b account
      = (Return {[ "changed" := JBool true;
                   "removed_ids" := JList ["cgw-2"; "cgw-3"] ]}, w')
    ∧ calls w' = [Delete "cgw-2"; Delete "cgw-3"].
Proof.
  destruct (delete_customer_gateway_all_tagged remove_b account
              eq_refl eq_refl) as (w' & Hdel & Hmain & Hcalls & _).
  exists w'. split; [|split].
  - exact Hdel.
  - exact Hmain.
  - exact Hcalls.
Defined.

(** Nothing is tagged "cgw-z": nothing is removed and nothing is issued. *)
Example absent_without_match :
  main (mkParams "cgw-z" "ipsec.1" "10.0.0.2" 65000 absent (Some "eu-west-1"))
       account
  = (Return {[ "changed" := JBool false; "removed_ids" := JList [] ]}, account).
Proof. vm_compute. reflexivity. Qed.

Lemma untagged_cgw_account :
  ∀ r, r ∈ resources account → ¬ has_name_tag account (name want_c) (cg_id r).
Proof.
  intros r Hr. simpl in Hr.
  repeat (apply elem_of_cons in Hr as [->|Hr]; [by vm_compute|]).
  by apply not_elem_of_nil in Hr.
Defined.

Lemma fresh_account : next_id account ∉ cg_id <$> resources account.
Proof.
  intros H. simpl in H.
  repeat (apply elem_of_cons in H as [H|H]; [by vm_compute in H|]).
  by apply not_elem_of_nil in H.
Defined.

Lemma create_customer_gateway_idempotent_witness :
  ∃ w1,
    create_customer_gateway want_c account = (Return ("cgw-new-0", true), w1)
    ∧ create_customer_gateway want_c w1 = (Return ("cgw-new-0", false), w1).
Proof.
  exact (create_customer_gateway_idempotent want_c account
           untagged_cgw_account fresh_account).
Defined.
End CustomerGatewayRuns.

Module VpnConnectionRuns.
Import VpnConnection VpnConnectionFacts.

(** A connection tagged "vpn-1" with dynamic routing. *)
Definition dynamic_connection : VpnConnection :=
  mkVpnConnection "vpn-1a2b" "ipsec.1" "cgw-1" "vgw-1" false.

Definition account (state : string) : World VpnConnection :=
  mkWorld [dynamic_connection]
          {[ "vpn-1a2b" := {[ "Name" := "vpn-1" ]} ]}
          (ids "vpn-new-") 0 [] 0 0 (λ _ _, state).

(** The same name and endpoints, but static routes are asked for. *)
Definition want_static : Params :=
  mkParams "vpn-1" "ipsec.1" "cgw-1" "vgw-1" true false 300
           present (Some "eu-west-1").

Lemma create_vpn_connection_ignores_routing_witness :
  static_routes_only want_static ≠ vc_static_routes_only dynamic_connection
  ∧ create_vpn_connection 0 want_static (account "available")
    = (Return ("vpn-1a2b", false), account "available").
Proof.
  split; [done|].
  apply (create_vpn_connection_ignores_routing 0 want_static
           (account "available") [] dynamic_connection []).
  - reflexivity.
  - intros r Hr. by apply not_elem_of_nil in Hr.
  - vm_compute. reflexivity.
  - reflexivity.
  - reflexivity.
  - reflexivity.
Defined.

(** A new connection is asked for, to be awaited for two seconds. *)
Definition want_second : Params :=
  mkParams "vpn-2" "ipsec.1" "cgw-1" "vgw-1" false true 2
           present (Some "eu-west-1").

Lemma untagged_vpn_account state :
  ∀ r, r ∈ resources (account state) →
       ¬ has_name_tag (account state) (name want_second) (vc_id r).
Proof.
  intros r Hr. simpl in Hr.
  repeat (apply elem_of_cons in Hr as [->|Hr]; [by vm_compute|]).
  by apply not_elem_of_nil in Hr.
Defined.

(** C1 on a connection that stays "pending". With wait_timeout 2 the
    await keeps polling for any number of turns: after [fuel] turns, [fuel]
    seconds have passed, far beyond the deadline, and the loop has neither
    returned nor failed.  The same holds for the whole present run that
    creates the connection with wait set. *)
Theorem await_pending_never_times_out :
  ∀ fuel,
    fst (await_vpn_connection_state fuel dynamic_connection "available" 2
           (account "pending")) = Running
    ∧ now (snd (await_vpn_connection_state fuel dynamic_connection
                  "available" 2 (account "pending")))
      = Z.of_nat fuel
    ∧ fst (create_vpn_connection fuel want_second (account "pending"))
      = Running.
Proof.
  intros fuel. split; [|split].
  - rewrite await_start by left.
    by apply await_loop_pending; [left| |].
  - rewrite await_start by left.
    by apply await_loop_pending; [left| |].
  - rewrite create_vpn_connection_new by apply untagged_vpn_account.
    change (wait want_second) with true. cbv iota.
    unfold bind at 1. rewrite await_start by (right; left).
    match goal with
    | |- context [await_loop ?f ?c ?a ?d ?i ?ch ?w] =>
        destruct (await_loop_pending f c a d i ch w) as [Hrun _];
        [right; left|done|done|]
    end.
    destruct (await_loop _ _ _ _ _ _ _) as [o w']. simpl in Hrun.
    by rewrite Hrun.
Qed.

Example await_available_returns :
  fst (create_vpn_connection 5 want_second (account "available"))
  = Return ("vpn-new-0", true).
Proof. vm_compute. reflexivity. Qed.
End VpnConnectionRuns.

Module VpnGatewayRuns.
Import VpnGateway VpnGatewayFacts.

Definition account (atts : list Attachment) : World VpnGateway :=
  mkWorld [mkVpnGateway "vgw-0f1e" "ipsec.1" atts]
          {[ "vgw-0f1e" := {[ "Name" := "vgw-1" ]} ]}
          (ids "vgw-new-") 0 [] 0 0 (λ _ _, "available").

Definition want (vpc type : string) : Params :=
  mkParams "vgw-1" vpc type present (Some "eu-west-1").

(** The gateway is moved from vpc-A to vpc-B. *)
Lemma create_vpn_gateway_converges_attachments_witness :
  ∃ w',
    create_vpn_gateway (want "vpc-B" "ipsec.1") (account [mkAttachment "vpc-A"])
    = (Return ("vgw-0f1e", true), w')
    ∧ calls w' = [DetachVpnGateway "vgw-0f1e" "vpc-A";
                  AttachVpnGateway "vgw-0f1e" "vpc-B"].
Proof.
  apply (create_vpn_gateway_converges_attachments (want "vpc-B" "ipsec.1")
           (account [mkAttachment "vpc-A"]) []
           (mkVpnGateway "vgw-0f1e" "ipsec.1" [mkAttachment "vpc-A"]) []).
  - reflexivity.
  - intros r Hr. by apply not_elem_of_nil in Hr.
  - vm_compute. reflexivity.
  - reflexivity.
Defined.

Example already_attached_unchanged :
  create_vpn_gateway (want "vpc-A" "ipsec.1") (account [mkAttachment "vpc-A"])
  = (Return ("vgw-0f1e", false), account [mkAttachment "vpc-A"]).
Proof. vm_compute. reflexivity. Qed.

(** C3 on the VPN gateway module. The tagged gateway has type ipsec.1 and
    is attached to vpc-A; ipsec.2 and vpc-B are asked for.  The run fails
    with the "cannot be modified" message, but only after it has detached
    vpc-A and attached vpc-B: the gateway is left attached to vpc-B. *)
Theorem vpn_gateway_is_modified_before_rejection :
  has_name_tag (account [mkAttachment "vpc-A"]) "vgw-1" "vgw-0f1e"
  ∧ ∃ w',
      create_vpn_gateway (want "vpc-B" "ipsec.2")
                         (account [mkAttachment "vpc-A"])
      = (FailJson "VPN gateway cannot be modified in that way", w')
      ∧ calls w' = [DetachVpnGateway "vgw-0f1e" "vpc-A";
                    AttachVpnGateway "vgw-0f1e" "vpc-B"]
      ∧ resources w'
        = [mkVpnGateway "vgw-0f1e" "ipsec.1" [mkAttachment "vpc-B"]].
Proof.
  split; [vm_compute; reflexivity|].
  eexists. split; [|split].
  - vm_compute. reflexivity.
  - vm_compute. reflexivity.
  - vm_compute. reflexivity.
Qed.

(** C5 (as the claim has it) fails: for a tagged gateway of another type
    both stale attachments are detached and the desired VPC is attached,
    yet the run does not report changed=true; it fails. *)
Lemma rejected_run_reports_no_change :
  has_name_tag (account [mkAttachment "vpc-A"; mkAttachment "vpc-C"])
               "vgw-1" "vgw-0f1e"
  ∧ ∃ w',
      create_vpn_gateway (want "vpc-B" "ipsec.2")
                         (account [mkAttachment "vpc-A"; mkAttachment "vpc-C"])
      = (FailJson "VPN gateway cannot be modified in that way", w')
      ∧ calls w' = [DetachVpnGateway "vgw-0f1e" "vpc-A";
                    DetachVpnGateway "vgw-0f1e" "vpc-C";
                    AttachVpnGateway "vgw-0f1e" "vpc-B"].
Proof.
  split; [vm_compute; reflexivity|].
  eexists. split.
  - vm_compute. reflexivity.
  - vm_compute. reflexivity.
Qed.

(** No gateway is tagged "vgw-2" yet. *)
Definition want_second : Params :=
  mkParams "vgw-2" "vpc-B" "ipsec.1" present (Some "eu-west-1").

Lemma create_vpn_gateway_new_is_attached_witness :
  ∃ w1,
    create_vpn_gateway want_second (account []) = (Return ("vgw-new-0", true), w1)
    ∧ calls w1
      = [Create (mkVpnGateway "vgw-new-0" "ipsec.1" []);
         CreateTags "vgw-new-0" {[ "Name" := "vgw-2" ]};
         AttachVpnGateway "vgw-new-0" "vpc-B"]
    ∧ mkVpnGateway "vgw-new-0" "ipsec.1" [mkAttachment "vpc-B"] ∈ resources w1.
Proof.
  apply (create_vpn_gateway_new_is_attached want_second (account [])).
  intros r Hr. simpl in Hr.
  repeat (apply elem_of_cons in Hr as [->|Hr]; [by vm_compute|]).
  by apply not_elem_of_nil in Hr.
Defined.
End VpnGatewayRuns.

Module PresentWithoutMatchRuns.
Import PresentWithoutMatch.

(** Neither account has a resource with the asked name; the connection is
    not awaited. *)
Definition want_unawaited : VpnConnection.Params :=
  VpnConnection.mkParams "vpn-2" "ipsec.1" "cgw-1" "vgw-1" false false 300
                         present (Some "eu-west-1").

Lemma create_without_match_witness :
  (∃ w1,
      CustomerGateway.create_customer_gateway
        CustomerGatewayRuns.want_c CustomerGatewayRuns.account
      = (Return ("cgw-new-0", true), w1)
      ∧ calls w1
        = [Create (CustomerGateway.mkCustomerGateway
                     "cgw-new-0" "ipsec.1" "127.0.0.1" 65000);
           CreateTags "cgw-new-0" {[ "Name" := "cgw-c" ]}])
  ∧ fst (VpnConnection.create_vpn_connection 0 want_unawaited
           (VpnConnectionRuns.account "pending"))
    = Return ("vpn-new-0", true).
Proof.
  destruct (create_without_match
              CustomerGatewayRuns.want_c CustomerGatewayRuns.account
              0 want_unawaited (VpnConnectionRuns.account "pending")
              CustomerGatewayRuns.untagged_cgw_account
              (VpnConnectionRuns.untagged_vpn_account "pending"))
    as ((w1 & Hrun & Hcalls & _) & _ & Hret & _).
  split.
  - exists w1. split; [exact Hrun|exact Hcalls].
  - exact (Hret eq_refl).
Defined.

(** C8 (as the claim has it) fails: no connection carries the name, one is
    created and tagged, but the state it shows at the deadline is
    "deleted" and the awaited run reports a failure, not the new id. *)
Lemma awaited_creation_can_fail :
  (∀ r, r ∈ resources (VpnConnectionRuns.account "deleted") →
        ¬ has_name_tag (VpnConnectionRuns.account "deleted") "vpn-2"
                       (VpnConnection.vc_id r))
  ∧ ∃ w',
      VpnConnection.create_vpn_connection 5 VpnConnectionRuns.want_second
        (VpnConnectionRuns.account "deleted")
      = (FailJson "The vpn connection vpn-new-0 failed to be in the available state within the timeout period.", w')
      ∧ calls w'
        = [Create (VpnConnection.mkVpnConnection
                     "vpn-new-0" "ipsec.1" "cgw-1" "vgw-1" false);
           CreateTags "vpn-new-0" {[ "Name" := "vpn-2" ]}].
Proof.
  split; [apply VpnConnectionRuns.untagged_vpn_account|].
  eexists. split.
  - vm_compute. reflexivity.
  - vm_compute. reflexivity.
Qed.
End PresentWithoutMatchRuns.

(** * Further properties of the modules *)

(** ** The tag test of the scans *)
Module TagTest.

(** The dictionary built from the listed tags maps a key to the value of the
    last listed tag with that key. *)
Lemma build_tagdict_last (gettags : list Tag) (k : string) :
  build_tagdict gettags !! k
  = tag_value <$> last (filter (λ t, tag_name t = k) gettags).
Proof.
  unfold build_tagdict.
  induction gettags as [|t l IH] using rev_ind; [done|].
  rewrite foldl_app, filter_app. simpl.
  destruct (decide (tag_name t = k)) as [E|E].
  - rewrite filter_cons_True, filter_nil by done.
    rewrite last_snoc. simpl. rewrite <- E. apply lookup_insert_eq.
  - rewrite filter_cons_False, filter_nil, app_nil_r by done.
    by rewrite lookup_insert_ne.
Qed.

(** X1. The test <<('Name', name) in set(tagdict.items())>> that every scan
    makes on the tags listed for a resource holds exactly when the last
    listed tag whose key is "Name" has the value [name]: a later tag with
    the same key overrides an earlier one, and other keys play no part. *)
Theorem name_test_last_tag_wins (gettags : list Tag) (name : string) :
  name_in_items name (build_tagdict gettags) = true
  ↔ tag_value <$> last (filter (λ t, tag_name t = "Name") gettags) = Some name.
Proof.
  rewrite name_in_items_lookup, bool_decide_eq_true.
  by rewrite build_tagdict_last.
Qed.

End TagTest.

(** ** The normalized DHCP options *)
Module BuildOptions.
Import DhcpOptionsSet.

Definition option_keys : list string :=
  ["domain-name"; "domain-name-servers"; "ntp-servers";
   "netbios-name-servers"; "netbios-node-type"].

Lemma build_options_lookups d dns ntp nb nt :
  build_options d dns ntp nb nt !! "domain-name" = (λ x, [x]) <$> d
  ∧ build_options d dns ntp nb nt !! "domain-name-servers" = dns
  ∧ build_options d dns ntp nb nt !! "ntp-servers" = ntp
  ∧ build_options d dns ntp nb nt !! "netbios-name-servers" = nb
  ∧ build_options d dns ntp nb nt !! "netbios-node-type"
    = (λ n : Z, [pretty n]) <$> nt.
Proof.
  unfold build_options.
  destruct d, dns, ntp, nb, nt; cbv zeta; simpl fmap;
    repeat split; by simplify_map_eq.
Qed.

(** X2. The mapping that [build_options] returns has an entry for an option
    exactly when that option is given: a given server list is stored as it
    is, an empty list included, [domain] and [netbios_node_type] become
    one-element lists (the node type in decimal), an option that is not
    given has no entry, and no other key occurs. *)
Theorem build_options_entries d dns ntp nb nt :
  build_options d dns ntp nb nt !! "domain-name" = (λ x, [x]) <$> d
  ∧ build_options d dns ntp nb nt !! "domain-name-servers" = dns
  ∧ build_options d dns ntp nb nt !! "ntp-servers" = ntp
  ∧ build_options d dns ntp nb nt !! "netbios-name-servers" = nb
  ∧ build_options d dns ntp nb nt !! "netbios-node-type"
    = (λ n : Z, [pretty n]) <$> nt
  ∧ ∀ k, k ∉ option_keys → build_options d dns ntp nb nt !! k = None.
Proof.
  destruct (build_options_lookups d dns ntp nb nt) as (H1 & H2 & H3 & H4 & H5).
  repeat (split; [done|]).
  intros k Hk. unfold option_keys in Hk.
  repeat (apply not_elem_of_cons in Hk as [? Hk]).
  unfold build_options.
  destruct d, dns, ntp, nb, nt; cbv zeta;
    repeat (rewrite lookup_insert_ne by congruence); apply lookup_empty.
Qed.

(** X3. [build_options] is injective: two desired option sets have the same
    normalized mapping only if they give the same options with the same
    values, so the comparison with the stored mapping never takes one
    desired option set for another. *)
Theorem build_options_inj d dns ntp nb nt d' dns' ntp' nb' nt' :
  build_options d dns ntp nb nt = build_options d' dns' ntp' nb' nt' →
  d = d' ∧ dns = dns' ∧ ntp = ntp' ∧ nb = nb' ∧ nt = nt'.
Proof.
  intros E.
  destruct (build_options_lookups d dns ntp nb nt) as (H1 & H2 & H3 & H4 & H5).
  destruct (build_options_lookups d' dns' ntp' nb' nt')
    as (H1' & H2' & H3' & H4' & H5').
  rewrite E in H1, H2, H3, H4, H5.
  rewrite H1' in H1. rewrite H2' in H2. rewrite H3' in H3.
  rewrite H4' in H4. rewrite H5' in H5.
  repeat split; try done.
  - destruct d, d'; simpl in H1; congruence.
  - destruct nt as [n|], nt' as [n'|]; simpl in H5; try congruence.
    f_equal. apply (inj pretty). congruence.
Qed.

Lemma build_options_inj_witness :
  Some "hq.mycorp.net" = Some "hq.mycorp.net"
  ∧ Some ["172.30.0.1"] = Some ["172.30.0.1"]
  ∧ (None : option (list string)) = None
  ∧ (None : option (list string)) = None
  ∧ Some 2 = Some 2.
Proof.
  apply (build_options_inj (Some "hq.mycorp.net") (Some ["172.30.0.1"]) None
           None (Some 2)).
  reflexivity.
Defined.

End BuildOptions.

(** ** The absent path of the other modules *)
Module AbsentPath.

Lemma filter_none {A} (P : A → Prop) `{∀ x, Decision (P x)} (l : list A) :
  (∀ x, x ∈ l → ¬ P x) → filter P l = [].
Proof.
  induction l as [|x l IH]; intros Hl; [done|].
  rewrite filter_cons_False by (apply Hl; left).
  apply IH. intros y Hy. apply Hl. by right.
Qed.

Lemma filter_all {A} (P : A → Prop) `{∀ x, Decision (P x)} (l : list A) :
  (∀ x, x ∈ l → P x) → filter P l = l.
Proof.
  induction l as [|x l IH]; intros Hl; [done|].
  rewrite filter_cons_True by (apply Hl; left).
  f_equal. apply IH. intros y Hy. apply Hl. by right.
Qed.

Lemma changed_iff_removed (ids : list string) :
  bool_decide (0 < length ids)%nat = bool_decide (ids ≠ []).
Proof.
  destruct ids; simpl; repeat case_bool_decide; try done; simpl in *; lia.
Qed.

(** X4. [delete_dhcp_options_set] deletes every listed option set that
    carries the tag ("Name", name), not only the first: it returns the ids
    of the tagged option sets in scan order, issues one delete call per id in
    that order and nothing else, and leaves the tags as they are. *)
Theorem delete_dhcp_options_set_all_tagged
    (p : DhcpOptionsSet.Params) (w : World DhcpOptionsSet.DhcpOptions) :
  let ids := DhcpOptionsSet.do_id
               <$> filter (λ r, has_name_tag w (DhcpOptionsSet.name p)
                                             (DhcpOptionsSet.do_id r))
                          (resources w) in
  ∃ w',
    DhcpOptionsSet.delete_dhcp_options_set p w = (Return ids, w')
    ∧ calls w' = calls w ++ (Delete <$> ids)
    ∧ resources w' = filter (λ r, DhcpOptionsSet.do_id r ∉ ids) (resources w)
    ∧ tags w' = tags w.
Proof.
  intros ids. exists (deleted DhcpOptionsSet.do_id ids w).
  split; [|split; [apply deleted_calls|split;
                    [apply deleted_resources|apply deleted_tags]]].
  unfold DhcpOptionsSet.delete_dhcp_options_set. cbv zeta.
  erewrite run_bind by reflexivity.
  by rewrite delete_loop_spec.
Qed.

(** X5. The absent path of the VPN connection module deletes every listed
    connection that carries the tag ("Name", name): [delete_vpn_connection]
    returns their ids in scan order after one delete call each, and [main]
    reports that list as [removed_ids], with [changed] true iff it is not
    empty. *)
Theorem delete_vpn_connection_all_tagged
    (fuel : nat) (p : VpnConnection.Params)
    (w : World VpnConnection.VpnConnection)
    (Hstate : VpnConnection.state p = absent)
    (Hregion : truthy (VpnConnection.region p) = true) :
  let ids := VpnConnection.vc_id
               <$> filter (λ r, has_name_tag w (VpnConnection.name p)
                                             (VpnConnection.vc_id r))
                          (resources w) in
  ∃ w',
    VpnConnection.delete_vpn_connection p w = (Return ids, w')
    ∧ VpnConnection.main fuel p w
      = (Return {[ "changed" := JBool (bool_decide (ids ≠ []));
                   "removed_ids" := JList ids ]}, w')
    ∧ calls w' = calls w ++ (Delete <$> ids)
    ∧ resources w' = filter (λ r, VpnConnection.vc_id r ∉ ids) (resources w).
Proof.
  intros ids. exists (deleted VpnConnection.vc_id ids w).
  assert (VpnConnection.delete_vpn_connection p w
          = (Return ids, deleted VpnConnection.vc_id ids w)) as Hdel.
  { unfold VpnConnection.delete_vpn_connection. cbv zeta.
    erewrite run_bind by reflexivity. by rewrite delete_loop_spec. }
  split; [done|]. split; [|split; [apply deleted_calls|apply deleted_resources]].
  unfold VpnConnection.main. cbv zeta. rewrite Hstate, Hregion.
  erewrite run_bind by reflexivity.
  erewrite run_bind by exact Hdel.
  unfold exit_json, ret. by rewrite changed_iff_removed.
Qed.

(** X6. The absent path of the VPN gateway module deletes every listed
    gateway that carries the tag ("Name", name), whatever it is attached to:
    [delete_vpn_gateway] returns their ids in scan order after one delete
    call each, without any detach call, and [main] reports that list as
    [removed_ids], with [changed] true iff it is not empty. *)
Theorem delete_vpn_gateway_all_tagged
    (p : VpnGateway.Params) (w : World VpnGateway.VpnGateway)
    (Hstate : VpnGateway.state p = absent)
    (Hregion : truthy (VpnGateway.region p) = true) :
  let ids := VpnGateway.vg_id
               <$> filter (λ r, has_name_tag w (VpnGateway.name p)
                                             (VpnGateway.vg_id r))
                          (resources w) in
  ∃ w',
    VpnGateway.delete_vpn_gateway p w = (Return ids, w')
    ∧ VpnGateway.main p w
      = (Return {[ "changed" := JBool (bool_decide (ids ≠ []));
                   "removed_ids" := JList ids ]}, w')
    ∧ calls w' = calls w ++ (Delete <$> ids)
    ∧ resources w' = filter (λ r, VpnGateway.vg_id r ∉ ids) (resources w).
Proof.
  intros ids. exists (deleted VpnGateway.vg_id ids w).
  assert (VpnGateway.delete_vpn_gateway p w
          = (Return ids, deleted VpnGateway.vg_id ids w)) as Hdel.
  { unfold VpnGateway.delete_vpn_gateway. cbv zeta.
    erewrite run_bind by reflexivity. by rewrite delete_loop_spec. }
  split; [done|]. split; [|split; [apply deleted_calls|apply deleted_resources]].
  unfold VpnGateway.main. cbv zeta. rewrite Hstate, Hregion.
  erewrite run_bind by reflexivity.
  erewrite run_bind by exact Hdel.
  unfold exit_json, ret. by rewrite changed_iff_removed.
Qed.

(** X7. A second absent run finds nothing to do: after
    [delete_customer_gateway] has returned, running it again with the same
    name returns the empty list and leaves the account as it is. *)
Theorem delete_customer_gateway_twice
    (p : CustomerGateway.Params) (w : World CustomerGateway.CustomerGateway) :
  ∃ ids w',
    CustomerGateway.delete_customer_gateway p w = (Return ids, w')
    ∧ CustomerGateway.delete_customer_gateway p w' = (Return [], w').
Proof.
  eexists _, _. split; [apply CustomerGatewayFacts.delete_customer_gateway_spec|].
  rewrite CustomerGatewayFacts.delete_customer_gateway_spec.
  set (ids := CustomerGateway.cg_id <$> filter _ (resources w)).
  rewrite filter_none; [done|].
  intros r Hr Htag. rewrite deleted_resources in Hr.
  apply list_elem_of_filter in Hr as [Hnot Hr]. apply Hnot.
  apply list_elem_of_fmap_2, list_elem_of_filter. split; [|done].
  unfold has_name_tag, tags_of in *. by rewrite deleted_tags in Htag.
Qed.

(** X8. Creating and then removing is a round trip: from an account in
    which no listed gateway carries the name (and the provider hands out an
    id that is not in use), a present run followed by an absent run with the
    same name returns exactly the id that was created, and the listing is
    again what it was before the two runs. *)
Theorem create_then_delete_customer_gateway
    (p : CustomerGateway.Params) (w : World CustomerGateway.CustomerGateway)
    (Hnone : ∀ r, r ∈ resources w →
                  ¬ has_name_tag w (CustomerGateway.name p)
                                 (CustomerGateway.cg_id r))
    (Hfresh : next_id w ∉ CustomerGateway.cg_id <$> resources w) :
  ∃ w1 w2,
    CustomerGateway.create_customer_gateway p w = (Return (next_id w, true), w1)
    ∧ CustomerGateway.delete_customer_gateway p w1 = (Return [next_id w], w2)
    ∧ resources w2 = resources w
    ∧ calls w2
      = calls w ++ [Create (CustomerGatewayFacts.new_gateway p w);
                    CreateTags (next_id w) {[ "Name" := CustomerGateway.name p ]};
                    Delete (next_id w)].
Proof.
  assert (∀ r, r ∈ resources w → CustomerGateway.cg_id r ≠ next_id w) as Hold.
  { intros r Hr E. apply Hfresh. rewrite <- E. by apply list_elem_of_fmap_2. }
  set (g := CustomerGatewayFacts.new_gateway p w).
  set (w1 := created_and_tagged g (next_id w) (CustomerGateway.name p) w).
  assert (CustomerGateway.cg_id
            <$> filter (λ r, has_name_tag w1 (CustomerGateway.name p)
                                          (CustomerGateway.cg_id r))
                       (resources w1) = [next_id w]) as Hids.
  { change (resources w1) with (resources w ++ [g]).
    rewrite filter_app, filter_none.
    - rewrite filter_cons_True; [done|]. apply created_and_tagged_new.
    - intros r Hr. unfold w1.
      rewrite created_and_tagged_old by (by apply Hold). by apply Hnone. }
  exists w1, (deleted CustomerGateway.cg_id [next_id w] w1).
  split; [by apply CustomerGatewayFacts.create_customer_gateway_new|].
  split; [|split].
  - rewrite CustomerGatewayFacts.delete_customer_gateway_spec. by rewrite Hids.
  - rewrite deleted_resources.
    change (resources w1) with (resources w ++ [g]).
    rewrite filter_app, filter_all.
    + rewrite filter_cons_False; [by rewrite app_nil_r|].
      intros Hn. apply Hn. left.
    + intros r Hr Hin. apply list_elem_of_singleton in Hin. by apply (Hold r).
  - rewrite deleted_calls. unfold w1.
    rewrite created_and_tagged_calls. by rewrite <- app_assoc.
Qed.

End AbsentPath.

Module AbsentPathRuns.
Import AbsentPath.

Definition remove_vpn_1 : VpnConnection.Params :=
  VpnConnection.mkParams "vpn-1" "ipsec.1" "cgw-1" "vgw-1" false false 300
                         absent (Some "eu-west-1").

Lemma delete_vpn_connection_all_tagged_witness :
  ∃ w',
    VpnConnection.delete_vpn_connection remove_vpn_1
      (VpnConnectionRuns.account "available") = (Return ["vpn-1a2b"], w')
    ∧ VpnConnection.main 0 remove_vpn_1 (VpnConnectionRuns.account "available")
      = (Return {[ "changed" := JBool true;
                   "removed_ids" := JList ["vpn-1a2b"] ]}, w')
    ∧ calls w' = [Delete "vpn-1a2b"]
    ∧ resources w' = [].
Proof.
  exact (delete_vpn_connection_all_tagged 0 remove_vpn_1
           (VpnConnectionRuns.account "available") eq_refl eq_refl).
Defined.

Definition remove_vgw_1 : VpnGateway.Params :=
  VpnGateway.mkParams "vgw-1" "vpc-A" "ipsec.1" absent (Some "eu-west-1").

Lemma delete_vpn_gateway_all_tagged_witness :
  ∃ w',
    VpnGateway.delete_vpn_gateway remove_vgw_1
      (VpnGatewayRuns.account [VpnGateway.mkAttachment "vpc-A"])
    = (Return ["vgw-0f1e"], w')
    ∧ VpnGateway.main remove_vgw_1
        (VpnGatewayRuns.account [VpnGateway.mkAttachment "vpc-A"])
      = (Return {[ "changed" := JBool true;
                   "removed_ids" := JList ["vgw-0f1e"] ]}, w')
    ∧ calls w' = [Delete "vgw-0f1e"]
    ∧ resources w' = [].
Proof.
  exact (delete_vpn_gateway_all_tagged remove_vgw_1
           (VpnGatewayRuns.account [VpnGateway.mkAttachment "vpc-A"])
           eq_refl eq_refl).
Defined.

Lemma create_then_delete_customer_gateway_witness :
  ∃ w1 w2,
    CustomerGateway.create_customer_gateway
      CustomerGatewayRuns.want_c CustomerGatewayRuns.account
    = (Return ("cgw-new-0", true), w1)
    ∧ CustomerGateway.delete_customer_gateway CustomerGatewayRuns.want_c w1
      = (Return ["cgw-new-0"], w2)
    ∧ resources w2 = resources CustomerGatewayRuns.account
    ∧ calls w2
      = [Create (CustomerGateway.mkCustomerGateway
                   "cgw-new-0" "ipsec.1" "127.0.0.1" 65000);
         CreateTags "cgw-new-0" {[ "Name" := "cgw-c" ]};
         Delete "cgw-new-0"].
Proof.
  exact (create_then_delete_customer_gateway
           CustomerGatewayRuns.want_c CustomerGatewayRuns.account
           CustomerGatewayRuns.untagged_cgw_account
           CustomerGatewayRuns.fresh_account).
Defined.

End AbsentPathRuns.

(** ** What [main] and the present path do before and on a match *)
Module PresentPath.

(** X9. Without a region every module stops before it talks to the
    provider: [main] fails with "region must be specified" whether the run
    is a present or an absent one, and the account is left as it is. *)
Theorem main_requires_region
    (pc : CustomerGateway.Params) (wc : World CustomerGateway.CustomerGateway)
    (pd : DhcpOptionsSet.Params) (wd : World DhcpOptionsSet.DhcpOptions)
    (fuel : nat)
    (pv : VpnConnection.Params) (wv : World VpnConnection.VpnConnection)
    (pg : VpnGateway.Params) (wg : World VpnGateway.VpnGateway)
    (Hc : truthy (CustomerGateway.region pc) = false)
    (Hd : truthy (DhcpOptionsSet.region pd) = false)
    (Hv : truthy (VpnConnection.region pv) = false)
    (Hg : truthy (VpnGateway.region pg) = false) :
  CustomerGateway.main pc wc = (FailJson "region must be specified", wc)
  ∧ DhcpOptionsSet.main pd wd = (FailJson "region must be specified", wd)
  ∧ VpnConnection.main fuel pv wv = (FailJson "region must be specified", wv)
  ∧ VpnGateway.main pg wg = (FailJson "region must be specified", wg).
Proof.
  unfold CustomerGateway.main, DhcpOptionsSet.main, VpnConnection.main,
    VpnGateway.main. cbv zeta.
  rewrite Hc, Hd, Hv, Hg. by repeat split.
Qed.

(** X10. On the present path of the customer gateway module the first
    listed gateway that carries the name decides the run, and the run only
    reads: if its type, IP address and BGP ASN all equal the desired ones the
    run returns its id with changed=false, otherwise it fails with "Customer
    gateway cannot be modified"; in both cases no call is issued, the account
    is untouched, and gateways listed after it are not looked at, even when
    they carry the same name. *)
Theorem create_customer_gateway_first_match
    (p : CustomerGateway.Params) (w : World CustomerGateway.CustomerGateway)
    (pre post : list CustomerGateway.CustomerGateway)
    (g : CustomerGateway.CustomerGateway)
    (Hres : resources w = pre ++ g :: post)
    (Hpre : ∀ r, r ∈ pre → ¬ has_name_tag w (CustomerGateway.name p)
                                          (CustomerGateway.cg_id r))
    (Hg : has_name_tag w (CustomerGateway.name p) (CustomerGateway.cg_id g)) :
  CustomerGateway.create_customer_gateway p w
  = (if bool_decide (CustomerGateway.type p = CustomerGateway.cg_type g
                     ∧ CustomerGateway.ip_address p
                       = CustomerGateway.cg_ip_address g
                     ∧ CustomerGateway.bgp_asn p = CustomerGateway.cg_bgp_asn g)
     then Return (CustomerGateway.cg_id g, false)
     else FailJson "Customer gateway cannot be modified", w).
Proof. by apply (CustomerGatewayFacts.create_customer_gateway_found p w pre g post). Qed.

(** X11. On the present path of the VPN connection module a listed
    connection that carries the name but differs from the desired type,
    customer gateway or VPN gateway is rejected: the run fails with "VPN
    connection cannot be modified", issues no call, does not wait even when
    [wait] is set, and leaves the account untouched. *)
Theorem create_vpn_connection_rejects_change
    (fuel : nat) (p : VpnConnection.Params)
    (w : World VpnConnection.VpnConnection)
    (pre post : list VpnConnection.VpnConnection) (c : VpnConnection.VpnConnection)
    (Hres : resources w = pre ++ c :: post)
    (Hpre : ∀ r, r ∈ pre → ¬ has_name_tag w (VpnConnection.name p)
                                          (VpnConnection.vc_id r))
    (Hc : has_name_tag w (VpnConnection.name p) (VpnConnection.vc_id c))
    (Hdiff : VpnConnection.type p ≠ VpnConnection.vc_type c
             ∨ VpnConnection.customer_gateway_id p
               ≠ VpnConnection.vc_customer_gateway_id c
             ∨ VpnConnection.vpn_gateway_id p
               ≠ VpnConnection.vc_vpn_gateway_id c) :
  VpnConnection.create_vpn_connection fuel p w
  = (FailJson "VPN connection cannot be modified", w).
Proof.
  rewrite (VpnConnectionFacts.create_vpn_connection_found fuel p w pre c post)
    by done.
  rewrite bool_decide_eq_false_2; [done|]. tauto.
Qed.

(** X12. On the present path of the DHCP module an option that is given on
    one side only is a change: when the desired mapping and the mapping
    stored in the first option set that carries the name differ under some
    key, be it that one side has no entry there and the other has one, even
    an empty list, the run fails with "DHCP options cannot be modified" and
    leaves the account untouched. *)
Theorem create_dhcp_options_set_rejects_key
    (p : DhcpOptionsSet.Params) (w : World DhcpOptionsSet.DhcpOptions)
    (pre post : list DhcpOptionsSet.DhcpOptions) (d : DhcpOptionsSet.DhcpOptions)
    (k : string)
    (Hres : resources w = pre ++ d :: post)
    (Hpre : ∀ r, r ∈ pre → ¬ has_name_tag w (DhcpOptionsSet.name p)
                                          (DhcpOptionsSet.do_id r))
    (Hd : has_name_tag w (DhcpOptionsSet.name p) (DhcpOptionsSet.do_id d))
    (Hk : DhcpOptionsSetFacts.desired_options p !! k
          ≠ DhcpOptionsSet.options d !! k) :
  DhcpOptionsSet.create_dhcp_options_set p w
  = (FailJson "DHCP options cannot be modified", w).
Proof.
  unfold DhcpOptionsSet.create_dhcp_options_set,
    DhcpOptionsSetFacts.desired_options in *. cbv zeta.
  erewrite run_bind by reflexivity. rewrite Hres.
  unfold bind at 1. rewrite for_each_skip by untagged Hpre.
  cbn [for_each]. unfold bind at 1. rewrite tag_test.
  rewrite bool_decide_eq_true_2 by done.
  case_bool_decide as Hne; [reflexivity|].
  exfalso. apply Hk. by rewrite Hne.
Qed.

End PresentPath.

Module PresentPathRuns.
Import PresentPath.

Lemma main_requires_region_witness :
  CustomerGateway.main
    (CustomerGateway.mkParams "cgw-c" "ipsec.1" "127.0.0.1" 65000 present None)
    CustomerGatewayRuns.account
  = (FailJson "region must be specified", CustomerGatewayRuns.account)
  ∧ DhcpOptionsSet.main
      (DhcpOptionsSet.mkParams "options-set-name" None None None None None
                               absent (Some ""))
      DhcpOptionsSetFacts.world_example
    = (FailJson "region must be specified", DhcpOptionsSetFacts.world_example)
  ∧ VpnConnection.main 0
      (VpnConnection.mkParams "vpn-1" "ipsec.1" "cgw-1" "vgw-1" false true 300
                              present None)
      (VpnConnectionRuns.account "pending")
    = (FailJson "region must be specified", VpnConnectionRuns.account "pending")
  ∧ VpnGateway.main
      (VpnGateway.mkParams "vgw-1" "vpc-A" "ipsec.1" absent None)
      (VpnGatewayRuns.account [])
    = (FailJson "region must be specified", VpnGatewayRuns.account []).
Proof.
  apply main_requires_region; reflexivity.
Defined.

(** The second of the two gateways tagged "cgw-b" is asked for: the first
    one is compared. *)
Definition want_b_third : CustomerGateway.Params :=
  CustomerGateway.mkParams "cgw-b" "ipsec.1" "10.0.0.3" 65000
                           present (Some "eu-west-1").

Lemma create_customer_gateway_first_match_witness :
  CustomerGateway.create_customer_gateway want_b_third CustomerGatewayRuns.account
  = (FailJson "Customer gateway cannot be modified", CustomerGatewayRuns.account).
Proof.
  apply (create_customer_gateway_first_match want_b_third
           CustomerGatewayRuns.account
           [CustomerGateway.mkCustomerGateway "cgw-1" "ipsec.1" "10.0.0.1" 65000]
           [CustomerGateway.mkCustomerGateway "cgw-3" "ipsec.1" "10.0.0.3" 65000]
           (CustomerGateway.mkCustomerGateway "cgw-2" "ipsec.1" "10.0.0.2" 65000)).
  - reflexivity.
  - intros r Hr. apply list_elem_of_singleton in Hr as ->. by vm_compute.
  - vm_compute. reflexivity.
Defined.

Definition want_other_type : VpnConnection.Params :=
  VpnConnection.mkParams "vpn-1" "ipsec.2" "cgw-1" "vgw-1" false true 300
                         present (Some "eu-west-1").

Lemma create_vpn_connection_rejects_change_witness :
  VpnConnection.create_vpn_connection 3 want_other_type
    (VpnConnectionRuns.account "pending")
  = (FailJson "VPN connection cannot be modified",
     VpnConnectionRuns.account "pending").
Proof.
  apply (create_vpn_connection_rejects_change 3 want_other_type
           (VpnConnectionRuns.account "pending") [] []
           VpnConnectionRuns.dynamic_connection).
  - reflexivity.
  - intros r Hr. by apply not_elem_of_nil in Hr.
  - vm_compute. reflexivity.
  - left. by vm_compute.
Defined.

(** The stored option set has no NTP servers; an empty list is asked for. *)
Definition want_empty_ntp : DhcpOptionsSet.Params :=
  DhcpOptionsSet.mkParams "options-set-name" (Some "hq.mycorp.net")
    (Some ["172.30.0.1"; "172.30.0.2"]) (Some []) None None
    present (Some "eu-west-1").

Lemma create_dhcp_options_set_rejects_key_witness :
  DhcpOptionsSetFacts.desired_options want_empty_ntp !! "ntp-servers" = Some []
  ∧ DhcpOptionsSet.options DhcpOptionsSetFacts.stored_example !! "ntp-servers"
    = None
  ∧ DhcpOptionsSet.create_dhcp_options_set want_empty_ntp
      DhcpOptionsSetFacts.world_example
    = (FailJson "DHCP options cannot be modified",
       DhcpOptionsSetFacts.world_example).
Proof.
  split; [vm_compute; reflexivity|]. split; [vm_compute; reflexivity|].
  apply (create_dhcp_options_set_rejects_key want_empty_ntp
           DhcpOptionsSetFacts.world_example [] []
           DhcpOptionsSetFacts.stored_example "ntp-servers").
  - reflexivity.
  - intros r Hr. by apply not_elem_of_nil in Hr.
  - vm_compute. reflexivity.
  - by vm_compute.
Defined.

End PresentPathRuns.

(** ** The wait for a VPN connection *)
Module Await.
Import VpnConnection VpnConnectionFacts.
Implicit Types (w : World VpnConnection) (c : VpnConnection).

(** A state query that answers, answers with the state the provider has for
    the id of the connection at this query. *)
Lemma get_connection_state_value c w s w1 :
  get_connection_state c w = (Return s, w1) →
  s = state_at w (vc_id c) (polls w) ∧ w1 = polled w.
Proof.
  unfold get_connection_state, bind, get_all_by_id. cbv zeta.
  destruct (filter (λ r, vc_id r ∈ [vc_id c]) (resources w))
    as [|r0 rest] eqn:Hf; simpl; [discriminate|].
  intros [= <- <-]. split; [|done].
  assert (r0 ∈ filter (λ r, vc_id r ∈ [vc_id c]) (resources w)) as Hr0
    by (rewrite Hf; left).
  apply list_elem_of_filter in Hr0 as [Hid _].
  apply list_elem_of_singleton in Hid. by rewrite Hid.
Qed.

(** A state query either answers or raises; it never fails the module. *)
Lemma get_connection_state_cases c w :
  get_connection_state c w
  = (Return (state_at w (vc_id c) (polls w)), polled w)
  ∨ get_connection_state c w = (Raise "IndexError", polled w).
Proof.
  destruct (get_connection_state c w) as [o w1] eqn:Hg.
  pose proof (get_connection_state_world c w) as Hw.
  rewrite Hg in Hw. simpl in Hw. subst w1.
  destruct o as [s| | |].
  - left. by apply get_connection_state_value in Hg as [-> _].
  - unfold get_connection_state, bind, get_all_by_id in Hg.
    by destruct (_ <$> filter _ (resources w)).
  - unfold get_connection_state, bind, get_all_by_id in Hg.
    destruct (_ <$> filter _ (resources w)); [|done].
    right. by injection Hg as <-.
  - unfold get_connection_state, bind, get_all_by_id in Hg.
    by destruct (_ <$> filter _ (resources w)).
Qed.

(** What the loop leaves alone, however it ends. *)
Definition account_of w :=
  (resources w, tags w, issued w, calls w).

Lemma await_loop_frame fuel c awaited deadline initial changed w :
  account_of (snd (await_loop fuel c awaited deadline initial changed w))
  = account_of w.
Proof.
  revert w. induction fuel as [|fuel IH]; intros w; [done|].
  cbn [await_loop]. unfold bind at 1.
  pose proof (get_connection_state_world c w) as Hw.
  destruct (get_connection_state c w) as [[s| | |] w1]; simpl in Hw; subst w1;
    try done.
  case_bool_decide; [done|].
  unfold bind at 1.
  case_bool_decide.
  - unfold ret at 1. unfold bind at 1, time_sleep at 1. by rewrite IH.
  - unfold bind at 1, time_time at 1.
    destruct (now (polled w) >=? deadline); [done|].
    unfold ret at 1. unfold bind at 1, time_sleep at 1. by rewrite IH.
Qed.

(** One turn of the loop, whatever the query answers. *)
Lemma await_loop_step fuel c awaited deadline initial changed w :
  await_loop (S fuel) c awaited deadline initial changed w
  = match get_connection_state c w with
    | (Return s, w1) =>
        if bool_decide (s = awaited) then (Return tt, w1)
        else if bool_decide (s = "pending")
        then await_loop fuel c awaited deadline initial changed (slept w1)
        else if now w1 >=? deadline
        then (FailJson (timeout_msg (vc_id c) awaited), w1)
        else await_loop fuel c awaited deadline initial changed (slept w1)
    | (FailJson msg, w1) => (FailJson msg, w1)
    | (Raise exn, w1) => (Raise exn, w1)
    | (Running, w1) => (Running, w1)
    end.
Proof.
  cbn [await_loop]. unfold bind at 1.
  destruct (get_connection_state c w) as [[s| | |] w1]; try reflexivity.
  case_bool_decide; [reflexivity|].
  case_bool_decide; [reflexivity|].
  unfold bind at 1. unfold bind at 1. unfold time_time.
  destruct (now w1 >=? deadline); reflexivity.
Qed.


Lemma await_start_general fuel c awaited timeout w :
  await_vpn_connection_state fuel c awaited timeout w
  = match get_connection_state c w with
    | (Return initial, w1) =>
        await_loop fuel c awaited (now w + timeout) initial false w1
    | (FailJson msg, w1) => (FailJson msg, w1)
    | (Raise exn, w1) => (Raise exn, w1)
    | (Running, w1) => (Running, w1)
    end.
Proof.
  unfold await_vpn_connection_state. cbv zeta.
  erewrite run_bind by reflexivity. unfold bind at 1.
  by destruct (get_connection_state c w) as [[s| | |] w1].
Qed.

Lemma await_frame fuel c awaited timeout w :
  account_of (snd (await_vpn_connection_state fuel c awaited timeout w))
  = account_of w.
Proof.
  rewrite await_start_general.
  destruct (get_connection_state_cases c w) as [Hg|Hg]; rewrite Hg; [|done].
  by rewrite await_loop_frame.
Qed.



(** X15. The wait only looks: however [await_vpn_connection_state] ends, it
    has issued no mutating call, and the listing, the tags and the ids handed
    out are what they were; only the clock and the number of state queries
    have moved on. *)
Theorem await_only_polls fuel c awaited timeout w :
  account_of (snd (await_vpn_connection_state fuel c awaited timeout w))
  = account_of w.
Proof. apply await_frame. Qed.

(** The world after [k] turns of the loop that went on. *)
Fixpoint turns (k : nat) w : World VpnConnection :=
  match k with
  | O => w
  | S k => turns k (slept (polled w))
  end.

Lemma turns_now k w : now (turns k w) = now w + Z.of_nat k.
Proof.
  revert w. induction k as [|k IH]; intros w; simpl turns; [lia|].
  rewrite IH. simpl. lia.
Qed.

Lemma turns_polls k w : polls (turns k w) = (polls w + k)%nat.
Proof.
  revert w. induction k as [|k IH]; intros w; simpl turns; [lia|].
  rewrite IH. simpl. lia.
Qed.

Lemma turns_resources k w : resources (turns k w) = resources w.
Proof.
  revert w. induction k as [|k IH]; intros w; simpl turns; [done|].
  by rewrite IH.
Qed.

Lemma turns_state_at k w : state_at (turns k w) = state_at w.
Proof.
  revert w. induction k as [|k IH]; intros w; simpl turns; [done|].
  by rewrite IH.
Qed.

Lemma await_loop_turns k fuel c awaited deadline initial changed w :
  c ∈ resources w →
  (∀ j, (j < k)%nat →
        state_at w (vc_id c) (polls w + j) ≠ awaited
        ∧ (state_at w (vc_id c) (polls w + j) = "pending"
           ∨ now w + Z.of_nat j < deadline)) →
  await_loop (k + fuel) c awaited deadline initial changed w
  = await_loop fuel c awaited deadline initial changed (turns k w).
Proof.
  revert w. induction k as [|k IH]; intros w Hc Hgo; [done|].
  destruct (Hgo 0%nat ltac:(lia)) as [H0 H0'].
  rewrite Nat.add_0_r in H0, H0'. rewrite Z.add_0_r in H0'.
  change (S k + fuel)%nat with (S (k + fuel)).
  rewrite await_loop_turn by done. simpl turns.
  apply IH; [done|]. intros j Hj. simpl.
  destruct (Hgo (S j) ltac:(lia)) as [H1 H2].
  rewrite Nat.add_succ_r in H1, H2. split; [done|].
  destruct H2 as [H2|H2]; [by left|right; lia].
Qed.

Lemma keeps_waiting_loop c timeout w k :
  (∀ j, (j < k)%nat → keeps_waiting w (vc_id c) timeout j) →
  ∀ j, (j < k)%nat →
       state_at (polled w) (vc_id c) (polls (polled w) + j) ≠ "available"
       ∧ (state_at (polled w) (vc_id c) (polls (polled w) + j) = "pending"
          ∨ now (polled w) + Z.of_nat j < now w + timeout).
Proof.
  intros Hgo j Hj. destruct (Hgo j Hj) as [H1 H2]. simpl. split; [done|].
  destruct H2 as [H2|H2]; [by left|right; lia].
Qed.

(** X16. The wait of the module returns as soon as a query answers
    "available": if turn [k] of the loop sees "available" and every earlier
    turn saw "pending" or came less than [timeout] seconds after the call,
    [await_vpn_connection_state] returns after [k] sleeps of one second and
    [k + 2] state queries (the snapshot of the initial state and one per
    turn).  States seen before the deadline that are neither "pending" nor
    "available" do not end the wait. *)
Theorem await_returns_after k fuel c timeout w
    (Hc : c ∈ resources w)
    (Hk : (k < fuel)%nat)
    (Hav : becomes_available w (vc_id c) timeout k) :
  ∃ w',
    await_vpn_connection_state fuel c "available" timeout w = (Return tt, w')
    ∧ now w' = now w + Z.of_nat k
    ∧ polls w' = (polls w + k + 2)%nat.
Proof.
  destruct Hav as [Hat Hgo].
  rewrite await_start by done.
  replace fuel with (k + S (fuel - S k))%nat by lia.
  rewrite await_loop_turns by (done || by apply keeps_waiting_loop).
  rewrite await_loop_step.
  rewrite get_connection_state_listed by (by rewrite turns_resources).
  rewrite turns_state_at, turns_polls. simpl polls. simpl state_at.
  rewrite bool_decide_eq_true_2 by done.
  eexists. split; [done|]. simpl. rewrite turns_now, turns_polls. simpl.
  split; lia.
Qed.

(** X17. The wait of the module gives up at the first turn, [timeout]
    seconds or more after the call, that sees a state that is neither
    "available" nor "pending": if turn [k] is such a turn and no earlier turn
    ended the loop, [await_vpn_connection_state] fails after [k] seconds with
    the message that names the connection id and the awaited state. *)
Theorem await_times_out_after k fuel c timeout w
    (Hc : c ∈ resources w)
    (Hk : (k < fuel)%nat)
    (Hup : gives_up w (vc_id c) timeout k) :
  ∃ w',
    await_vpn_connection_state fuel c "available" timeout w
    = (FailJson (timeout_msg (vc_id c) "available"), w')
    ∧ now w' = now w + Z.of_nat k.
Proof.
  destruct Hup as (Hna & Hnp & Hlate & Hgo).
  rewrite await_start by done.
  replace fuel with (k + S (fuel - S k))%nat by lia.
  rewrite await_loop_turns by (done || by apply keeps_waiting_loop).
  rewrite await_loop_step.
  rewrite get_connection_state_listed by (by rewrite turns_resources).
  rewrite turns_state_at, turns_polls. simpl polls. simpl state_at.
  rewrite bool_decide_eq_false_2 by done.
  rewrite bool_decide_eq_false_2 by done.
  replace (now (polled (turns k (polled w))) >=? now w + timeout) with true.
  - eexists. split; [done|]. simpl. rewrite turns_now. simpl. lia.
  - symmetry. rewrite Z.geb_leb. apply Z.leb_le. simpl.
    rewrite turns_now. simpl. lia.
Qed.

End Await.

Module AwaitRuns.
Import VpnConnection VpnConnectionFacts Await.

(** A connection that answers "pending" to the first two queries and
    "available" from then on. *)
Definition settling : World VpnConnection :=
  mkWorld [VpnConnectionRuns.dynamic_connection]
          {[ "vpn-1a2b" := {[ "Name" := "vpn-1" ]} ]}
          (ids "vpn-new-") 0 [] 0 0
          (λ _ n, if bool_decide (n < 2)%nat then "pending" else "available").

Lemma await_returns_after_witness :
  ∃ w',
    await_vpn_connection_state 5 VpnConnectionRuns.dynamic_connection
      "available" 300 settling = (Return tt, w')
    ∧ now w' = 1
    ∧ polls w' = 3%nat.
Proof.
  apply (await_returns_after 1 5 VpnConnectionRuns.dynamic_connection 300
           settling).
  - left.
  - lia.
  - split; [reflexivity|].
    intros j Hj. assert (j = 0%nat) as -> by lia.
    split; [done|]. left. reflexivity.
Defined.

Lemma await_times_out_after_witness :
  ∃ w',
    await_vpn_connection_state 5 VpnConnectionRuns.dynamic_connection
      "available" 2 (VpnConnectionRuns.account "deleting")
    = (FailJson "The vpn connection vpn-1a2b failed to be in the available state within the timeout period.", w')
    ∧ now w' = 2.
Proof.
  apply (await_times_out_after 2 5 VpnConnectionRuns.dynamic_connection 2
           (VpnConnectionRuns.account "deleting")).
  - left.
  - lia.
  - split; [done|]. split; [done|]. split; [lia|].
    intros j Hj. split; [done|]. right. lia.
Defined.



End AwaitRuns.

(** ** Running the present path again *)
Module Again.

Lemma has_name_tag_tags {R} (w w' : World R) name rid :
  tags w' = tags w → has_name_tag w' name rid ↔ has_name_tag w name rid.
Proof. intros E. unfold has_name_tag, tags_of. by rewrite E. Qed.

(** X18. The present path of the VPN connection module is idempotent,
    waiting or not: from an account in which no listed connection carries
    the name (and the provider hands out an id that is not in use), whenever
    the first run returns, it returns the new id with changed=true, and a
    second run with the same parameters returns the same id with
    changed=false without creating, tagging or waiting: it leaves the
    account exactly as the first run left it. *)
Theorem create_vpn_connection_idempotent
    (fuel fuel' : nat) (p : VpnConnection.Params)
    (w w1 : World VpnConnection.VpnConnection) (r : string * bool)
    (Hnone : ∀ c, c ∈ resources w →
                  ¬ has_name_tag w (VpnConnection.name p) (VpnConnection.vc_id c))
    (Hfresh : next_id w ∉ VpnConnection.vc_id <$> resources w)
    (Hrun : VpnConnection.create_vpn_connection fuel p w = (Return r, w1)) :
  r = (next_id w, true)
  ∧ VpnConnection.create_vpn_connection fuel' p w1
    = (Return (next_id w, false), w1).
Proof.
  rewrite VpnConnectionFacts.create_vpn_connection_new in Hrun by done.
  set (c := VpnConnectionFacts.new_connection p w) in *.
  set (w0 := created_and_tagged c (next_id w) (VpnConnection.name p) w) in *.
  assert (r = (next_id w, true) ∧ Await.account_of w1 = Await.account_of w0)
    as [-> Hframe].
  { destruct (VpnConnection.wait p).
    - unfold bind in Hrun.
      pose proof (Await.await_frame fuel c "available"
                    (VpnConnection.wait_timeout p) w0) as Hf.
      destruct (VpnConnection.await_vpn_connection_state fuel c "available"
                  (VpnConnection.wait_timeout p) w0) as [[[]| | |] w2];
        try done.
      simpl in Hf. unfold ret in Hrun. by injection Hrun as <- <-.
    - unfold bind, ret in Hrun. by injection Hrun as <- <-. }
  split; [done|].
  injection Hframe as Hres Htags _ _.
  rewrite (VpnConnectionFacts.create_vpn_connection_found fuel' p w1
             (resources w) c []).
  - by rewrite bool_decide_eq_true_2.
  - by rewrite Hres.
  - intros c' Hc'. rewrite (has_name_tag_tags w0 w1) by done. unfold w0.
    rewrite created_and_tagged_old; [by apply Hnone|].
    intros E. apply Hfresh. rewrite <- E. by apply list_elem_of_fmap_2.
  - rewrite (has_name_tag_tags w0 w1) by done. apply created_and_tagged_new.
Qed.

End Again.

Module AgainVpnGateway.
Import VpnGateway VpnGatewayFacts.
Implicit Types (w : World VpnGateway) (p : Params) (g : VpnGateway).

(** A gateway attached to the desired VPC and to nothing else. *)
Definition settled p g : Prop :=
  type p = vg_type g
  ∧ attachments g ≠ []
  ∧ ∀ a, a ∈ attachments g → att_vpc_id a = vpc_id p.

Lemma create_vpn_gateway_settled p w pre g post :
  resources w = pre ++ g :: post →
  (∀ r, r ∈ pre → ¬ has_name_tag w (name p) (vg_id r)) →
  has_name_tag w (name p) (vg_id g) →
  settled p g →
  create_vpn_gateway p w = (Return (vg_id g, false), w).
Proof.
  intros Hres Hpre Hg (Htype & Hne & Hall).
  unfold create_vpn_gateway. cbv zeta.
  erewrite run_bind by reflexivity. rewrite Hres.
  unfold bind at 1. rewrite for_each_skip by untagged Hpre.
  cbn [for_each]. unfold bind at 1. rewrite tag_test.
  rewrite bool_decide_eq_true_2 by done.
  unfold bind at 1. rewrite attachments_loop_spec. simpl orb.
  unfold stale. rewrite AbsentPath.filter_none
    by (intros a Ha Hn; apply Hn; by apply Hall).
  rewrite (bool_decide_eq_false_2 ([] ≠ [])) by (intros H; by apply H).
  rewrite (bool_decide_eq_true_2 (vpc_id p ∈ _)).
  - simpl. unfold bind at 1, ret at 1.
    rewrite bool_decide_eq_false_2 by (intros H; by apply H).
    reflexivity.
  - destruct (attachments g) as [|a atts]; [done|].
    simpl. rewrite (Hall a) by left. left.
Qed.

(** X19. The present path of the VPN gateway module is idempotent: from an
    account in which no listed gateway carries the name (and the provider
    hands out an id that is not in use), the first run creates, tags and
    attaches the gateway and returns its id with changed=true; a second run
    with the same parameters returns the same id with changed=false and
    issues nothing, neither a detach nor another attach. *)
Theorem create_vpn_gateway_idempotent p w
    (Hnone : ∀ r, r ∈ resources w → ¬ has_name_tag w (name p) (vg_id r))
    (Hfresh : next_id w ∉ vg_id <$> resources w) :
  ∃ w1,
    create_vpn_gateway p w = (Return (next_id w, true), w1)
    ∧ create_vpn_gateway p w1 = (Return (next_id w, false), w1).
Proof.
  eexists. split.
  - unfold create_vpn_gateway. cbv zeta.
    erewrite run_bind by reflexivity.
    erewrite run_bind by (apply for_each_none; untagged Hnone).
    reflexivity.
  - match goal with
    | |- create_vpn_gateway p ?w1 = _ =>
        apply (create_vpn_gateway_settled p w1
                 ((λ g, if bool_decide (vg_id g = next_id w)
                        then mkVpnGateway (vg_id g) (vg_type g)
                               (attachments g ++ [mkAttachment (vpc_id p)])
                        else g) <$> resources w)
                 (mkVpnGateway (next_id w) (type p) [mkAttachment (vpc_id p)])
                 [])
    end.
    + simpl. rewrite fmap_app. simpl.
      by rewrite bool_decide_eq_true_2.
    + intros r' Hr'. apply list_elem_of_fmap in Hr' as (r & -> & Hr).
      assert (vg_id r ≠ next_id w) as Hid.
      { intros E. apply Hfresh. rewrite <- E. by apply list_elem_of_fmap_2. }
      rewrite bool_decide_eq_false_2 by done.
      unfold has_name_tag, tags_of. simpl.
      rewrite lookup_insert_ne by done. by apply Hnone.
    + unfold has_name_tag, tags_of. simpl. rewrite lookup_insert_eq. simpl.
      apply lookup_union_Some_l, lookup_singleton_eq.
    + split; [done|]. split; [done|].
      intros a Ha. by apply list_elem_of_singleton in Ha as ->.
Qed.

(** What the detach calls of [gw] from [vpcs] do to a listed gateway. *)
Definition detach_from (gw : string) (vpcs : list string) g : VpnGateway :=
  if bool_decide (vg_id g = gw)
  then mkVpnGateway (vg_id g) (vg_type g)
         (filter (λ a, att_vpc_id a ∉ vpcs) (attachments g))
  else g.

(** What the attach call of [gw] to [vpc] does to a listed gateway. *)
Definition attach_to (gw vpc : string) g : VpnGateway :=
  if bool_decide (vg_id g = gw)
  then mkVpnGateway (vg_id g) (vg_type g) (attachments g ++ [mkAttachment vpc])
  else g.

Lemma detach_from_id gw vpcs g : vg_id (detach_from gw vpcs g) = vg_id g.
Proof. unfold detach_from. by case_bool_decide. Qed.

Lemma attach_to_id gw vpc g : vg_id (attach_to gw vpc g) = vg_id g.
Proof. unfold attach_to. by case_bool_decide. Qed.

Lemma detached_resources gw vpcs w :
  resources (detached gw vpcs w) = detach_from gw vpcs <$> resources w.
Proof.
  revert w. induction vpcs as [|v vpcs IH]; intros w.
  - simpl. rewrite <- (list_fmap_id (resources w)) at 1.
    apply list_fmap_ext. intros i g _. unfold detach_from.
    case_bool_decide; [|done]. destruct g as [i' t atts]. simpl. f_equal.
    symmetry. apply AbsentPath.filter_all. intros a _. apply not_elem_of_nil.
  - change (detached gw (v :: vpcs) w)
      with (detached gw vpcs (snd (detach_vpn_gateway gw v w))).
    rewrite IH. simpl. rewrite <- list_fmap_compose.
    apply list_fmap_ext. intros i g _. simpl. unfold detach_from.
    destruct (decide (vg_id g = gw)) as [Hid|Hid].
    + rewrite !(bool_decide_eq_true_2 (vg_id g = gw)) by done. simpl.
      f_equal.
      rewrite list_filter_filter. apply list_filter_iff.
      intros a. rewrite not_elem_of_cons. tauto.
    + by rewrite !(bool_decide_eq_false_2 (vg_id g = gw)) by done.
Qed.

(** The run on a matched gateway of the desired type, with the world it
    leaves. *)
Lemma create_vpn_gateway_match_world p w pre g post :
  resources w = pre ++ g :: post →
  (∀ r, r ∈ pre → ¬ has_name_tag w (name p) (vg_id r)) →
  has_name_tag w (name p) (vg_id g) →
  type p = vg_type g →
  let vpcs := att_vpc_id <$> stale (vpc_id p) (attachments g) in
  let w1 := detached (vg_id g) vpcs w in
  ∃ changed,
    create_vpn_gateway p w
    = (Return (vg_id g, changed),
       if bool_decide (vpc_id p ∈ att_vpc_id <$> attachments g) then w1
       else snd (attach_vpn_gateway (vg_id g) (vpc_id p) w1)).
Proof.
  intros Hres Hpre Hg Htype vpcs w1. unfold create_vpn_gateway. cbv zeta.
  erewrite run_bind by reflexivity. rewrite Hres.
  unfold bind at 1. rewrite for_each_skip by untagged Hpre.
  cbn [for_each]. unfold bind at 1. rewrite tag_test.
  rewrite bool_decide_eq_true_2 by done.
  unfold bind at 1. rewrite attachments_loop_spec. simpl orb.
  fold vpcs. fold w1.
  destruct (bool_decide (vpc_id p ∈ att_vpc_id <$> attachments g));
    simpl negb; cbv iota.
  - eexists. unfold bind at 1, ret at 1.
    rewrite (bool_decide_eq_false_2 (type p ≠ vg_type g))
      by (intros H; by apply H).
    reflexivity.
  - eexists. unfold bind at 1. unfold bind at 1.
    unfold attach_vpn_gateway at 1, ret at 1.
    rewrite (bool_decide_eq_false_2 (type p ≠ vg_type g))
      by (intros H; by apply H).
    reflexivity.
Qed.

(** After the stale attachments are gone, what is left is attached to the
    desired VPC. *)
Lemma kept_attachments (vpc : string) (atts : list Attachment) a :
  a ∈ filter (λ a, att_vpc_id a ∉ att_vpc_id <$> stale vpc atts) atts →
  att_vpc_id a = vpc.
Proof.
  intros Ha. apply list_elem_of_filter in Ha as [Hnot Ha].
  destruct (decide (att_vpc_id a = vpc)) as [|Hne]; [done|].
  exfalso. apply Hnot. apply list_elem_of_fmap_2.
  apply list_elem_of_filter. by split.
Qed.

Lemma kept_attachment_exists (vpc : string) (atts : list Attachment) :
  vpc ∈ att_vpc_id <$> atts →
  filter (λ a, att_vpc_id a ∉ att_vpc_id <$> stale vpc atts) atts ≠ [].
Proof.
  intros Hin. apply list_elem_of_fmap in Hin as (a & Hv & Ha).
  intros E. eapply (not_elem_of_nil a). rewrite <- E.
  apply list_elem_of_filter. split; [|done].
  intros Hin. apply list_elem_of_fmap in Hin as (b & Hb & Hbin).
  apply list_elem_of_filter in Hbin as [Hne _]. congruence.
Qed.

(** X20. Bringing the attachments to the desired VPC is idempotent: after a
    present run on a listed gateway that carries the name and has the
    desired type, whatever it was attached to, a second run with the same
    parameters returns the same id with changed=false and issues nothing. *)
Theorem create_vpn_gateway_converges_once p w pre g post
    (Hres : resources w = pre ++ g :: post)
    (Hpre : ∀ r, r ∈ pre → ¬ has_name_tag w (name p) (vg_id r))
    (Hg : has_name_tag w (name p) (vg_id g))
    (Htype : type p = vg_type g) :
  ∃ changed w1,
    create_vpn_gateway p w = (Return (vg_id g, changed), w1)
    ∧ create_vpn_gateway p w1 = (Return (vg_id g, false), w1).
Proof.
  destruct (create_vpn_gateway_match_world p w pre g post Hres Hpre Hg Htype)
    as [changed Hrun].
  cbv zeta in Hrun.
  set (vpcs := att_vpc_id <$> stale (vpc_id p) (attachments g)) in *.
  set (w1 := detached (vg_id g) vpcs w) in *.
  assert (tags w1 = tags w) as Htags by apply detached_tags.
  assert (resources w1
          = (detach_from (vg_id g) vpcs <$> pre)
              ++ detach_from (vg_id g) vpcs g
              :: (detach_from (vg_id g) vpcs <$> post)) as Hres1.
  { unfold w1. by rewrite detached_resources, Hres, fmap_app. }
  assert (detach_from (vg_id g) vpcs g
          = mkVpnGateway (vg_id g) (vg_type g)
              (filter (λ a, att_vpc_id a ∉ vpcs) (attachments g))) as Hg1.
  { unfold detach_from. by rewrite bool_decide_eq_true_2. }
  exists changed. eexists. split; [exact Hrun|].
  case_bool_decide as Hatt.
  - rewrite (create_vpn_gateway_settled p w1 _ _ _ Hres1).
    + by rewrite detach_from_id.
    + intros r' Hr'. apply list_elem_of_fmap in Hr' as (r & -> & Hr).
      rewrite detach_from_id. rewrite (Again.has_name_tag_tags w w1) by done.
      by apply Hpre.
    + rewrite detach_from_id. by rewrite (Again.has_name_tag_tags w w1).
    + rewrite Hg1. split; [done|]. split.
      * by apply kept_attachment_exists.
      * intros a Ha. by apply (kept_attachments _ (attachments g)).
  - set (w2 := snd (attach_vpn_gateway (vg_id g) (vpc_id p) w1)).
    assert (resources w2
            = (attach_to (vg_id g) (vpc_id p) <$>
                 (detach_from (vg_id g) vpcs <$> pre))
                ++ attach_to (vg_id g) (vpc_id p) (detach_from (vg_id g) vpcs g)
                :: (attach_to (vg_id g) (vpc_id p) <$>
                      (detach_from (vg_id g) vpcs <$> post))) as Hres2.
    { unfold w2. simpl. by rewrite Hres1, fmap_app. }
    rewrite (create_vpn_gateway_settled p w2 _ _ _ Hres2).
    + by rewrite attach_to_id, detach_from_id.
    + intros r' Hr'. apply list_elem_of_fmap in Hr' as (r1 & -> & Hr1).
      apply list_elem_of_fmap in Hr1 as (r & -> & Hr).
      rewrite attach_to_id, detach_from_id.
      rewrite (Again.has_name_tag_tags w w2) by done. by apply Hpre.
    + rewrite attach_to_id, detach_from_id.
      by rewrite (Again.has_name_tag_tags w w2).
    + rewrite Hg1. unfold attach_to. simpl.
      rewrite bool_decide_eq_true_2 by done. simpl.
      split; [done|]. split.
      * intros E. by apply app_eq_nil in E as [_ ?].
      * intros a Ha. apply elem_of_app in Ha as [Ha|Ha].
        -- by apply (kept_attachments _ (attachments g)).
        -- by apply list_elem_of_singleton in Ha as ->.
Qed.

End AgainVpnGateway.

(** ** What a present run issues *)
Module Issued.

(** X21. On the present path of the DHCP module, when no listed option set
    carries the name, one option set is created under the id the provider
    hands out and is then tagged with ("Name", name) by a separate call; no
    other call is issued and the run returns the new id with changed=true. *)
Theorem create_dhcp_options_set_new
    (p : DhcpOptionsSet.Params) (w : World DhcpOptionsSet.DhcpOptions)
    (Hnone : ∀ r, r ∈ resources w →
                  ¬ has_name_tag w (DhcpOptionsSet.name p)
                                 (DhcpOptionsSet.do_id r)) :
  ∃ d w1,
    DhcpOptionsSet.create_dhcp_options_set p w = (Return (next_id w, true), w1)
    ∧ DhcpOptionsSet.do_id d = next_id w
    ∧ calls w1
      = calls w ++ [Create d;
                    CreateTags (next_id w) {[ "Name" := DhcpOptionsSet.name p ]}]
    ∧ resources w1 = resources w ++ [d]
    ∧ has_name_tag w1 (DhcpOptionsSet.name p) (next_id w).
Proof.
  exists (DhcpOptionsSet.mkDhcpOptions (next_id w)
            (DhcpOptionsSetFacts.desired_options p)).
  exists (created_and_tagged
            (DhcpOptionsSet.mkDhcpOptions (next_id w)
               (DhcpOptionsSetFacts.desired_options p))
            (next_id w) (DhcpOptionsSet.name p) w).
  split; [|split; [|split; [|split]]].
  - unfold DhcpOptionsSet.create_dhcp_options_set. cbv zeta.
    erewrite run_bind by reflexivity.
    erewrite run_bind by (apply for_each_none; untagged Hnone).
    reflexivity.
  - reflexivity.
  - simpl. by rewrite <- app_assoc.
  - reflexivity.
  - apply created_and_tagged_new.
Qed.

(** X22. A present run of the VPN gateway module that finds a listed
    gateway carrying the name touches nothing but the attachments of that
    gateway: the calls it issues are detaches of that gateway from VPCs other
    than the desired one, followed by at most one attach of that gateway to
    the desired VPC.  It never detaches the desired VPC, never creates,
    deletes or tags, and never changes the tags. *)
Theorem create_vpn_gateway_touches_attachments_only
    (p : VpnGateway.Params) (w : World VpnGateway.VpnGateway)
    (pre post : list VpnGateway.VpnGateway) (g : VpnGateway.VpnGateway)
    (Hres : resources w = pre ++ g :: post)
    (Hpre : ∀ r, r ∈ pre → ¬ has_name_tag w (VpnGateway.name p)
                                          (VpnGateway.vg_id r))
    (Hg : has_name_tag w (VpnGateway.name p) (VpnGateway.vg_id g)) :
  ∃ vpcs att,
    calls (snd (VpnGateway.create_vpn_gateway p w))
    = calls w ++ (DetachVpnGateway (VpnGateway.vg_id g) <$> vpcs) ++ att
    ∧ tags (snd (VpnGateway.create_vpn_gateway p w)) = tags w
    ∧ (∀ vpc, vpc ∈ vpcs → vpc ≠ VpnGateway.vpc_id p)
    ∧ (att = []
       ∨ att = [AttachVpnGateway (VpnGateway.vg_id g) (VpnGateway.vpc_id p)]).
Proof.
  destruct (VpnGatewayFacts.create_vpn_gateway_found p w pre g post
              Hres Hpre Hg) as (w' & Hrun & Hcalls & Htags).
  exists (VpnGateway.att_vpc_id
            <$> VpnGatewayFacts.stale (VpnGateway.vpc_id p)
                  (VpnGateway.attachments g)),
         (VpnGatewayFacts.attach p g).
  rewrite Hrun. simpl. split; [|split; [done|split]].
  - rewrite Hcalls. unfold VpnGatewayFacts.detaches.
    by rewrite <- list_fmap_compose.
  - intros vpc Hin. apply list_elem_of_fmap in Hin as (a & -> & Ha).
    by apply list_elem_of_filter in Ha as [Hne _].
  - unfold VpnGatewayFacts.attach.
    destruct (bool_decide (VpnGateway.vpc_id p ∈ _)); [by left|by right].
Qed.

End Issued.

Module AgainRuns.

Lemma fresh_vpn_account state :
  next_id (VpnConnectionRuns.account state)
  ∉ VpnConnection.vc_id <$> resources (VpnConnectionRuns.account state).
Proof.
  intros H. simpl in H.
  repeat (apply elem_of_cons in H as [H|H]; [by vm_compute in H|]).
  by apply not_elem_of_nil in H.
Defined.

(** The first run waits through two "pending" answers. *)
Lemma create_vpn_connection_idempotent_witness :
  ∃ w1,
    VpnConnection.create_vpn_connection 5 VpnConnectionRuns.want_second
      AwaitRuns.settling = (Return ("vpn-new-0", true), w1)
    ∧ VpnConnection.create_vpn_connection 0 VpnConnectionRuns.want_second w1
      = (Return ("vpn-new-0", false), w1).
Proof.
  eexists. split; [vm_compute; reflexivity|].
  eapply (Again.create_vpn_connection_idempotent 5 0
            VpnConnectionRuns.want_second AwaitRuns.settling).
  - apply (VpnConnectionRuns.untagged_vpn_account "pending").
  - apply (fresh_vpn_account "pending").
  - vm_compute. reflexivity.
Defined.

Lemma untagged_vgw_account :
  ∀ r, r ∈ resources (VpnGatewayRuns.account []) →
       ¬ has_name_tag (VpnGatewayRuns.account [])
           (VpnGateway.name VpnGatewayRuns.want_second) (VpnGateway.vg_id r).
Proof.
  intros r Hr. simpl in Hr.
  repeat (apply elem_of_cons in Hr as [->|Hr]; [by vm_compute|]).
  by apply not_elem_of_nil in Hr.
Defined.

Lemma fresh_vgw_account :
  next_id (VpnGatewayRuns.account [])
  ∉ VpnGateway.vg_id <$> resources (VpnGatewayRuns.account []).
Proof.
  intros H. simpl in H.
  repeat (apply elem_of_cons in H as [H|H]; [by vm_compute in H|]).
  by apply not_elem_of_nil in H.
Defined.

Lemma create_vpn_gateway_idempotent_witness :
  ∃ w1,
    VpnGateway.create_vpn_gateway VpnGatewayRuns.want_second
      (VpnGatewayRuns.account []) = (Return ("vgw-new-0", true), w1)
    ∧ VpnGateway.create_vpn_gateway VpnGatewayRuns.want_second w1
      = (Return ("vgw-new-0", false), w1).
Proof.
  exact (AgainVpnGateway.create_vpn_gateway_idempotent
           VpnGatewayRuns.want_second (VpnGatewayRuns.account [])
           untagged_vgw_account fresh_vgw_account).
Defined.

Definition two_stale : list VpnGateway.Attachment :=
  [VpnGateway.mkAttachment "vpc-A"; VpnGateway.mkAttachment "vpc-C"].

Lemma create_vpn_gateway_converges_once_witness :
  ∃ changed w1,
    VpnGateway.create_vpn_gateway (VpnGatewayRuns.want "vpc-B" "ipsec.1")
      (VpnGatewayRuns.account two_stale) = (Return ("vgw-0f1e", changed), w1)
    ∧ VpnGateway.create_vpn_gateway (VpnGatewayRuns.want "vpc-B" "ipsec.1") w1
      = (Return ("vgw-0f1e", false), w1).
Proof.
  apply (AgainVpnGateway.create_vpn_gateway_converges_once
           (VpnGatewayRuns.want "vpc-B" "ipsec.1")
           (VpnGatewayRuns.account two_stale) []
           (VpnGateway.mkVpnGateway "vgw-0f1e" "ipsec.1" two_stale) []).
  - reflexivity.
  - intros r Hr. by apply not_elem_of_nil in Hr.
  - vm_compute. reflexivity.
  - reflexivity.
Defined.

Lemma create_dhcp_options_set_new_witness :
  ∃ d w1,
    DhcpOptionsSet.create_dhcp_options_set
      (DhcpOptionsSet.mkParams "second-set" (Some "hq.mycorp.net") None None
                               None (Some 2) present (Some "eu-west-1"))
      DhcpOptionsSetFacts.world_example
    = (Return ("dopt-0", true), w1)
    ∧ DhcpOptionsSet.do_id d = "dopt-0"
    ∧ calls w1 = [Create d; CreateTags "dopt-0" {[ "Name" := "second-set" ]}]
    ∧ resources w1 = resources DhcpOptionsSetFacts.world_example ++ [d]
    ∧ has_name_tag w1 "second-set" "dopt-0".
Proof.
  apply (Issued.create_dhcp_options_set_new
           (DhcpOptionsSet.mkParams "second-set" (Some "hq.mycorp.net") None
              None None (Some 2) present (Some "eu-west-1"))
           DhcpOptionsSetFacts.world_example).
  intros r Hr. simpl in Hr.
  repeat (apply elem_of_cons in Hr as [->|Hr]; [by vm_compute|]).
  by apply not_elem_of_nil in Hr.
Defined.

Lemma create_vpn_gateway_touches_attachments_only_witness :
  ∃ vpcs att,
    calls (snd (VpnGateway.create_vpn_gateway
                  (VpnGatewayRuns.want "vpc-B" "ipsec.1")
                  (VpnGatewayRuns.account two_stale)))
    = [] ++ (DetachVpnGateway "vgw-0f1e" <$> vpcs) ++ att
    ∧ tags (snd (VpnGateway.create_vpn_gateway
                   (VpnGatewayRuns.want "vpc-B" "ipsec.1")
                   (VpnGatewayRuns.account two_stale)))
      = tags (VpnGatewayRuns.account two_stale)
    ∧ (∀ vpc, vpc ∈ vpcs → vpc ≠ "vpc-B")
    ∧ (att = [] ∨ att = [AttachVpnGateway "vgw-0f1e" "vpc-B"]).
Proof.
  apply (Issued.create_vpn_gateway_touches_attachments_only
           (VpnGatewayRuns.want "vpc-B" "ipsec.1")
           (VpnGatewayRuns.account two_stale) [] []
           (VpnGateway.mkVpnGateway "vgw-0f1e" "ipsec.1" two_stale)).
  - reflexivity.
  - intros r Hr. by apply not_elem_of_nil in Hr.
  - vm_compute. reflexivity.
Defined.

End AgainRuns.
